(** * 27_bidirectional_LSTM.ipynb: the notebook's own code, embedded in Rocq

    The notebook is a linear sequence of cells.  Its own code is the parameter
    cell ([max_features], [maxlen]), the layer stack handed to [Sequential],
    the re-indexing of the vocabulary ([word_index]) and the helper
    [predict_sentiment].  Everything else is a call into the framework
    (dataset loader, [pad_sequences], [fit], [evaluate], [predict]); those
    calls are modelled separately and marked as such.

    Strings are Rocq strings: sequences of 8-bit characters.  An input text is
    read as a sequence of code points below 256 (Latin-1), on which Python's
    [str.lower] and [str.split] behave as written below. *)

From Stdlib Require Import ZArith List String Ascii Lia QArith Reals Lra.
From stdpp Require Import base option list gmap strings pretty.

Local Open Scope string_scope.
Local Open Scope list_scope.
Local Open Scope Z_scope.

(** ** Cell 2: parameters *)

(** [max_features = 10000]: vocabulary size, also the embedding's row count. *)
Definition max_features : Z := 10000.

(** [maxlen = 200]: length of every padded review. *)
Definition maxlen : nat := 200.

(** ** Python's [str.lower] and [str.split] on code points below 256 *)

Definition code (c : ascii) : N := N_of_ascii c.

(** Upper-case letters with a lower-case partner: A-Z, and the Latin-1 block
    U+00C0..U+00DE without the multiplication sign U+00D7. *)
Definition is_upper (c : ascii) : bool :=
  let n := code c in
  ((65 <=? n) && (n <=? 90) || (192 <=? n) && (n <=? 222) && negb (n =? 215))%N.

(** One character of [text.lower()]: the partner is 32 code points above. *)
Definition lower_char (c : ascii) : ascii :=
  if is_upper c then ascii_of_N (code c + 32) else c.

(** [text.lower()] *)
Fixpoint lower (s : string) : string :=
  match s with
  | EmptyString => EmptyString
  | String c s' => String (lower_char c) (lower s')
  end.

(** The characters [str.split()] treats as separators: TAB, LF, VT, FF, CR,
    FS, GS, RS, US, space, NEL and the no-break space. *)
Definition isspace (c : ascii) : bool :=
  let n := code c in
  ((9 <=? n) && (n <=? 13) || (28 <=? n) && (n <=? 32) || (n =? 133) || (n =? 160))%N.

(** [split_from cur s]: the words of [s], where [cur] holds the characters
    read so far of the word that is open. *)
Fixpoint split_from (cur : string) (s : string) : list string :=
  match s with
  | EmptyString =>
      match cur with
      | EmptyString => []
      | _ => [cur]
      end
  | String c s' =>
      if isspace c then
        match cur with
        | EmptyString => split_from EmptyString s'
        | _ => cur :: split_from EmptyString s'
        end
      else split_from (cur +:+ String c EmptyString) s'
  end.

(** [text.split()]: maximal runs of non-separator characters, in order; runs
    of separators and leading or trailing separators give no empty word. *)
Definition split (s : string) : list string := split_from EmptyString s.

(** ** Cell 7: the vocabulary *)

(** [word_index = {k:(v+3) for k,v in word_index.items()}] followed by the
    four assignments of the reserved entries.  [raw] is the dictionary that
    [imdb.get_word_index()] returned. *)
Definition word_index (raw : gmap string Z) : gmap string Z :=
  <["<UNUSED>" := 3]>
    (<["<UNK>" := 2]>
       (<["<START>" := 1]>
          (<["<PAD>" := 0]> ((λ v, v + 3) <$> raw)))).

(** [word_index.get(word, 2)] *)
Definition get_index (raw : gmap string Z) (word : string) : Z :=
  default 2 (word_index raw !! word).

(** Lines 349-350 of [predict_sentiment]:
    [words = text.lower().split()] and
    [sequence = [word_index.get(word, 2) for word in words]]. *)
Definition words_of (text : string) : list string := split (lower text).

Definition sequence_of (raw : gmap string Z) (text : string) : list Z :=
  get_index raw <$> words_of text.

(** ** The padding step *)

Inductive side : Set := Pre | Post.

(** Modelled from the spec: [pad_sequences] is the framework's function
    (tensorflow.keras.preprocessing.sequence), not defined in the notebook.
    The data model describes its result as "a fixed-shape rectangular array of
    reviews, each truncated or zero-padded (left-padded in the observed
    default) to exactly 200 tokens".  [pad_row] is one row of that array for a
    row length [n]: the sequence is cut to at most [n] tokens on the
    [truncating] side, then filled with [value] on the [padding] side. *)
Definition pad_row (padding truncating : side) (value : Z) (n : nat)
    (s : list Z) : list Z :=
  let trunc :=
    match truncating with
    | Pre => drop (length s - n) s
    | Post => take n s
    end in
  match padding with
  | Pre => replicate (n - length trunc) value ++ trunc
  | Post => trunc ++ replicate (n - length trunc) value
  end.

(** Modelled from the spec: [pad_sequences(sequences, maxlen=n)] as the
    notebook calls it, every other argument at its default (padding and
    truncation on the left, fill value 0): one row per sequence, in order. *)
Definition pad_sequences (sequences : list (list Z)) (n : nat) : list (list Z) :=
  pad_row Pre Pre 0 n <$> sequences.

(** ** Cell 3: the layer stack *)

Inductive activation : Set := Linear | Sigmoid.

Inductive layer : Set :=
  | Embedding (input_dim output_dim : Z)
  | LSTM (units : Z)
  | Bidirectional (inner : layer)
  | Dense (units : Z) (act : activation).

(** [Sequential()] and [model.add(layer)] *)
Definition Sequential : list layer := [].

Definition add (model : list layer) (l : layer) : list layer := model ++ [l].

(** The three [model.add] calls of the cell, in order. *)
Definition model_layers : list layer :=
  add (add (add Sequential (Embedding max_features 128))
           (Bidirectional (LSTM 64)))
      (Dense 1 Sigmoid).

(** Width of a layer's output for an input of width [i].  [Bidirectional]
    runs its inner layer forward and backward and concatenates the two. *)
Fixpoint features (i : Z) (l : layer) : Z :=
  match l with
  | Embedding _ d => d
  | LSTM u => u
  | Bidirectional inner => features i inner + features i inner
  | Dense u _ => u
  end.

(** Number of trainable parameters of a layer for an input of width [i]: a
    table of [n] rows of width [d]; four gates, each with an input matrix, a
    recurrent matrix and a bias; two copies of the inner layer; a weight
    matrix and a bias. *)
Fixpoint param_count (i : Z) (l : layer) : Z :=
  match l with
  | Embedding n d => n * d
  | LSTM u => 4 * (u * (i + u) + u)
  | Bidirectional inner => param_count i inner + param_count i inner
  | Dense u _ => i * u + u
  end.

(** The rows of [model.summary()]: output width and parameter count of each
    layer, the width of one layer being the input width of the next. *)
Fixpoint summary (i : Z) (layers : list layer) : list (Z * Z) :=
  match layers with
  | [] => []
  | l :: rest => (features i l, param_count i l) :: summary (features i l) rest
  end.

(** Number of rows of the embedding table of a stack that starts with an
    embedding layer. *)
Definition embedding_rows (layers : list layer) : Z :=
  match layers with
  | Embedding n _ :: _ => n
  | _ => 0
  end.

(** Modelled from the spec: what the layers compute is the framework's and is
    not in the notebook.  The specification names "three pre-built layers
    (embedding lookup, a forward-plus-backward recurrent layer whose outputs
    are concatenated, and a single-unit sigmoid classifier)" over an
    "embedding table of shape vocabulary x 128".  The definitions below
    follow these words over the reals; the floating-point number the
    framework prints is its rounding. *)
Definition sigmoid (x : R) : R := (1 / (1 + exp (- x)))%R.

Definition activate (act : activation) (x : R) : R :=
  match act with
  | Linear => x
  | Sigmoid => sigmoid x
  end.

(** Modelled from the spec: the weighted sum of one unit. *)
Definition dot (w x : list R) : R :=
  foldr Rplus 0%R (zip_with Rmult w x).

(** Modelled from the spec: what passes between the layers: the token
    indices of a review, one vector per token, or one vector per review. *)
Inductive value : Type :=
  | Tokens (ts : list Z)
  | Sequence (xs : list (list R))
  | Vector (x : list R).

(** Modelled from the spec: the parameters of a layer: the rows of the
    table; the recurrence of one direction, kept opaque; the two directions
    of the wrapper; one weight row and one bias per unit. *)
Inductive layer_weights : Type :=
  | EmbeddingW (table : Z → list R)
  | LSTMW (cell : list (list R) → list R)
  | BidirectionalW (forward_w backward_w : layer_weights)
  | DenseW (kernel : list (list R)) (bias : list R).

(** Modelled from the spec: one layer applied to its input.  The embedding
    looks every token up in a table of [n] rows of width [d]; a recurrent
    layer of [u] units turns the sequence into [u] features; the wrapper runs
    its inner layer over the sequence and over the reversed sequence and
    concatenates the two outputs; the dense layer gives one activated
    weighted sum per unit.  A layer given parameters or an input of another
    kind has no output. *)
Fixpoint apply_layer (l : layer) (p : layer_weights) (v : value) : option value :=
  match l, p, v with
  | Embedding n d, EmbeddingW table, Tokens ts =>
      if forallb (λ i, (0 <=? i) && (i <? n)) ts
      then Some (Sequence ((λ i, resize (Z.to_nat d) 0%R (table i)) <$> ts))
      else None
  | LSTM u, LSTMW cell, Sequence xs =>
      Some (Vector (resize (Z.to_nat u) 0%R (cell xs)))
  | Bidirectional inner, BidirectionalW pf pb, Sequence xs =>
      match apply_layer inner pf (Sequence xs),
            apply_layer inner pb (Sequence (reverse xs)) with
      | Some (Vector a), Some (Vector b) => Some (Vector (a ++ b))
      | _, _ => None
      end
  | Dense u act, DenseW kernel bias, Vector x =>
      Some (Vector (zip_with (λ w b, activate act (dot w x + b)%R)
                             (resize (Z.to_nat u) [] kernel)
                             (resize (Z.to_nat u) 0%R bias)))
  | _, _, _ => None
  end.

(** Modelled from the spec: the layers of a stack applied one after the
    other, each with its own parameters. *)
Fixpoint run_layers (layers : list layer) (ps : list layer_weights) (v : value)
    : option value :=
  match layers, ps with
  | [], [] => Some v
  | l :: layers', p :: ps' =>
      match apply_layer l p v with
      | Some v' => run_layers layers' ps' v'
      | None => None
      end
  | _, _ => None
  end.

(** ** Values, exceptions and output *)

(** A floating-point number as the comparison and the formatting of lines
    360-362 see it: a finite number is the rational it denotes. *)
Inductive float : Set :=
  | Finite (q : Q)
  | Infinity (negative : bool)
  | NaN.

(** [x > y] for a float [x] and a finite constant [y]: every comparison with
    NaN is false. *)
Definition gt (x : float) (y : Q) : bool :=
  match x with
  | Finite q =>
      match (y ?= q)%Q with
      | Lt => true
      | _ => false
      end
  | Infinity negative => negb negative
  | NaN => false
  end.

(** Nearest integer to [a / b] for [0 < b], ties to the even neighbour. *)
Definition round_half_even (a b : Z) : Z :=
  let q := a / b in
  let r := a mod b in
  if 2 * r <? b then q
  else if b <? 2 * r then q + 1
  else if Z.even q then q
  else q + 1.

(** The digits of [n], filled with zeros on the left to at least [width]. *)
Definition digits (width : nat) (n : Z) : string :=
  let d := pretty (Z.to_N n) in
  String.concat "" (replicate (width - String.length d) "0") +:+ d.

(** The format [{x:.4f}] of an f-string. *)
Definition format4 (x : float) : string :=
  match x with
  | Finite q =>
      let scaled := round_half_even (Qnum q * 10000) (Zpos (Qden q)) in
      (if Qnum q <? 0 then "-" else "")
        +:+ pretty (Z.to_N (Z.abs scaled / 10000)) +:+ "."
        +:+ digits 4 (Z.abs scaled mod 10000)
  | Infinity negative => if negative then "-inf" else "inf"
  | NaN => "nan"
  end.

Inductive exn : Set :=
  | InvalidArgumentError (index : Z)
  | IndexError
  | KeyError (key : string)
  | FrameworkError (message : string).

Inductive outcome (A : Type) : Type :=
  | Returned (a : A)
  | Raised (e : exn).

Arguments Returned {A} a.
Arguments Raised {A} e.

Definition and_then {A B : Type} (o : outcome A) (k : A → outcome B) : outcome B :=
  match o with
  | Returned a => k a
  | Raised e => Raised e
  end.

(** What [imdb.load_data] returns: [(x_train, y_train), (x_test, y_test)]. *)
Definition dataset : Type :=
  (list (list Z) * list Z) * (list (list Z) * list Z).

(** Modelled from the spec: the framework behind the notebook's calls, none of
    it defined in the notebook.  The model is "an opaque, framework-owned
    parameter collection (embedding table of shape vocabulary x 128, plus the
    bidirectional recurrent layer's forward/backward weight matrices, plus a
    single output weight vector)", "mutated in place by the optimizer during
    training, and read-only during evaluation/inference".  [table_row w i] is
    row [i] of the embedding table of the parameters [w]; [recurrent_dense]
    is the recurrent and the output layer applied to the embedded review;
    [optimizer] is [model.fit] (it returns the parameters it leaves behind,
    also when it raises); [metrics] is [model.evaluate]; [initial] gives the
    parameters of a freshly built stack; [load_data] and [get_word_index] are
    the two downloads. *)
Record framework : Type := {
  vec : Type;
  weights : Type;
  initial : list layer → weights;
  table_row : weights → Z → vec;
  recurrent_dense : weights → list vec → float;
  optimizer : weights → list (list Z) → list Z → nat → nat → Q →
              outcome unit * weights;
  metrics : weights → list (list Z) → list Z → nat → outcome (float * float);
  load_data : Z → outcome dataset;
  get_word_index : outcome (gmap string Z)
}.

Definition nl : string := String (ascii_of_N 10) EmptyString.

Section Notebook.
Context (F : framework).

(** Modelled from the spec: the embedding layer is "a learned lookup table
    mapping discrete token indices to dense vectors" with one row per
    vocabulary entry; an index that is not a row of the table has no vector,
    and the lookup raises. *)
Definition embedding_lookup (w : weights F) (i : Z) : outcome (vec F) :=
  if decide (0 ≤ i < embedding_rows model_layers)
  then Returned (table_row F w i)
  else Raised (InvalidArgumentError i).

Fixpoint embed (w : weights F) (review : list Z) : outcome (list (vec F)) :=
  match review with
  | [] => Returned []
  | i :: rest =>
      and_then (embedding_lookup w i) (λ v,
      and_then (embed w rest) (λ vs, Returned (v :: vs)))
  end.

(** Modelled from the spec: the forward pass of the three layers on a batch,
    one row of one probability per review. *)
Fixpoint forward (w : weights F) (batch : list (list Z)) : outcome (list (list float)) :=
  match batch with
  | [] => Returned []
  | review :: rest =>
      and_then (embed w review) (λ vs,
      and_then (forward w rest) (λ ps, Returned ([recurrent_dense F w vs] :: ps)))
  end.

(** The notebook's variables and what its [print] calls have written, one
    entry per call.  Progress bars and the summary table are written by the
    framework and are not part of [stdout]. *)
Record notebook : Type := {
  x_train : list (list Z);
  y_train : list Z;
  x_test : list (list Z);
  y_test : list Z;
  model : weights F;
  stdout : list string
}.

(** A cell or a call: it reads and updates the notebook and returns or
    raises; what was assigned or printed before an exception stays. *)
Definition M (A : Type) : Type := notebook → outcome A * notebook.

Definition bind {A B : Type} (m : M A) (k : A → M B) : M B :=
  λ nb,
    match m nb with
    | (Returned a, nb') => k a nb'
    | (Raised e, nb') => (Raised e, nb')
    end.

Definition lift {A : Type} (o : outcome A) : M A := λ nb, (o, nb).

Definition print (line : string) : M unit :=
  λ nb, (Returned tt,
         {| x_train := x_train nb; y_train := y_train nb;
            x_test := x_test nb; y_test := y_test nb;
            model := model nb; stdout := stdout nb ++ [line] |}).

Definition assign_data (d : dataset) : M unit :=
  λ nb, (Returned tt,
         {| x_train := d.1.1; y_train := d.1.2;
            x_test := d.2.1; y_test := d.2.2;
            model := model nb; stdout := stdout nb |}).

Definition assign_x_train (x : list (list Z)) : M unit :=
  λ nb, (Returned tt,
         {| x_train := x; y_train := y_train nb;
            x_test := x_test nb; y_test := y_test nb;
            model := model nb; stdout := stdout nb |}).

Definition assign_x_test (x : list (list Z)) : M unit :=
  λ nb, (Returned tt,
         {| x_train := x_train nb; y_train := y_train nb;
            x_test := x; y_test := y_test nb;
            model := model nb; stdout := stdout nb |}).

Definition assign_model (w : weights F) : M unit :=
  λ nb, (Returned tt,
         {| x_train := x_train nb; y_train := y_train nb;
            x_test := x_test nb; y_test := y_test nb;
            model := w; stdout := stdout nb |}).

Definition read {A : Type} (f : notebook → A) : M A := λ nb, (Returned (f nb), nb).

Notation "'let*' x ':=' m 'in' k" := (bind m (λ x, k))
  (at level 10, x pattern, m at level 100, k at level 200, only parsing).
Notation "m ;; k" := (bind m (λ _, k))
  (at level 100, k at level 200, right associativity, only parsing).

(** *** Framework calls on the model object *)

(** [model.fit(x, y, batch_size=..., epochs=..., validation_split=...)]: the
    one call that writes the parameters. *)
Definition model_fit (x : list (list Z)) (y : list Z) (batch_size epochs : nat)
    (validation_split : Q) : M unit :=
  λ nb,
    let r := optimizer F (model nb) x y batch_size epochs validation_split in
    (let* _ := assign_model r.2 in lift r.1) nb.

(** [model.evaluate(x, y, batch_size=...)] reads the parameters. *)
Definition model_evaluate (x : list (list Z)) (y : list Z) (batch_size : nat)
    : M (float * float) :=
  λ nb, (metrics F (model nb) x y batch_size, nb).

(** [model.predict(batch)] reads the parameters. *)
Definition model_predict (batch : list (list Z)) : M (list (list float)) :=
  λ nb, (forward (model nb) batch, nb).

(** [prediction[0][0]] *)
Definition item00 (prediction : list (list float)) : outcome float :=
  match prediction with
  | (p :: _) :: _ => Returned p
  | _ => Raised IndexError
  end.

(** *** Cell 2: load and pad *)

(** The shape of a padded batch as [print] shows it. *)
Definition shape (x : list (list Z)) (n : nat) : string :=
  "(" +:+ pretty (length x) +:+ ", " +:+ pretty n +:+ ")".

Definition cell_data : M unit :=
  print "Loading data...";;
  let* d := lift (load_data F max_features) in
  assign_data d;;
  let* x := read x_train in
  print (pretty (length x) +:+ " train sequences");;
  let* x := read x_test in
  print (pretty (length x) +:+ " test sequences");;
  print (nl +:+ "Pad sequences (samples x time)");;
  let* x := read x_train in
  assign_x_train (pad_sequences x maxlen);;
  let* x := read x_test in
  assign_x_test (pad_sequences x maxlen);;
  let* x := read x_train in
  print ("x_train shape: " +:+ shape x maxlen);;
  let* x := read x_test in
  print ("x_test shape: " +:+ shape x maxlen).

(** *** Cell 3: build the model *)

Definition cell_model : M unit :=
  assign_model (initial F model_layers).

(** *** Cell 4: train *)

Definition cell_train : M unit :=
  print "Training model...";;
  let* x := read x_train in
  let* y := read y_train in
  model_fit x y 32 5 (2 # 10).

(** *** Cell 5: evaluate *)

Definition cell_evaluate : M unit :=
  let* x := read x_test in
  let* y := read y_test in
  let* r := model_evaluate x y 32 in
  print ("Test score: " +:+ format4 r.1);;
  print ("Test accuracy: " +:+ format4 r.2).

(** *** Cell 7: predictions on new text *)

(** Lines 346-365.  [raw] is the dictionary the cell obtained from
    [imdb.get_word_index()]; the function reads the re-indexed dictionary
    [word_index raw] built at the top of the cell. *)
Definition predict_sentiment (raw : gmap string Z) (text : string) : M unit :=
  let words := split (lower text) in
  let sequence := get_index raw <$> words in
  let padded_sequence := pad_sequences [sequence] maxlen in
  let* prediction := model_predict padded_sequence in
  let* probability := lift (item00 prediction) in
  print (nl +:+ "Review: '" +:+ text +:+ "'");;
  print ("Positive Sentiment Probability: " +:+ format4 probability);;
  if gt probability (5 # 10)
  then print "Result: Positive sentiment 😊"
  else print "Result: Negative sentiment 😞".

(** Lines 357-365 on their own: what [predict_sentiment] does with the value
    [model.predict] returned. *)
Definition report (text : string) (prediction : list (list float)) : M unit :=
  let* probability := lift (item00 prediction) in
  print (nl +:+ "Review: '" +:+ text +:+ "'");;
  print ("Positive Sentiment Probability: " +:+ format4 probability);;
  if gt probability (5 # 10)
  then print "Result: Positive sentiment 😊"
  else print "Result: Negative sentiment 😞".

Definition cell_predict : M unit :=
  let* raw := lift (get_word_index F) in
  predict_sentiment raw
    "This was an absolutely fantastic film with brilliant acting and a great plot";;
  predict_sentiment raw
    "The movie was a complete waste of time boring and predictable".

(** The cells in the order of the notebook. *)
Definition run_all : M unit :=
  cell_data;; cell_model;; cell_train;; cell_evaluate;; cell_predict.

End Notebook.

Arguments x_train {F} _.
Arguments y_train {F} _.
Arguments x_test {F} _.
Arguments y_test {F} _.
Arguments model {F} _.
Arguments stdout {F} _.

(** ** A part of the IMDB word index

    Ranks as [imdb.get_word_index()] gives them: the most frequent word has
    rank 1, and the index goes far beyond the 10,000 words the model is
    built for. *)
Definition imdb_sample : gmap string Z :=
  list_to_map
    [("the", 1); ("and", 2); ("a", 3); ("of", 4); ("to", 5); ("is", 6);
     ("br", 7); ("in", 8); ("it", 9); ("i", 10); ("this", 11); ("that", 12);
     ("was", 13); ("as", 14); ("for", 15); ("with", 16); ("movie", 17);
     ("but", 18); ("film", 19); ("woods", 1408); ("hanging", 2345);
     ("woody", 2289); ("spiders", 16115); ("sonja", 16816); ("fawn", 34701);
     ("tsukino", 52006); ("nunnery", 52007)].

(** ** A small framework to run the notebook on

    The parameters are one integer, a row of the table is its own index, the
    probability is a quarter of the parameter, and each training call adds
    one to it. *)
Definition toy : framework := {|
  vec := Z;
  weights := Z;
  initial := λ _, 2;
  table_row := λ _ i, i;
  recurrent_dense := λ w _, Finite (w # 4);
  optimizer := λ w _ _ _ _ _, (Returned tt, w + 1);
  metrics := λ _ _ _ _, Returned (Finite (575 # 1000), Finite (8465 # 10000));
  load_data := λ _, Returned (([[1; 14; 22]; [1; 5]], [1; 0]), ([[1; 7]], [0]));
  get_word_index := Returned imdb_sample
|}.

Definition blank : notebook toy :=
  Build_notebook toy [] [] [] [] 0 [].

(** The notebook once the model is built: no data, nothing printed. *)
Definition built : notebook toy :=
  Build_notebook toy [] [] [] [] (initial toy model_layers) [].

(** ** The specification's wording, for comparison with the code *)

(** "map each resulting word to its entry in the (+3-shifted) word index with
    every unknown word mapped to index 2" *)
Definition shifted_lookup (raw : gmap string Z) (word : string) : Z :=
  match raw !! word with
  | Some v => v + 3
  | None => 2
  end.

(** "left-pad the resulting single sequence to length 200": zeros in front,
    and of a longer sequence the 200 tokens the padding step keeps. *)
Definition left_pad (n : nat) (s : list Z) : list Z :=
  replicate (n - length s) 0 ++ drop (length s - n) s.

(** "lowercase text": every capital letter gives way to its small partner.
    The pairs are listed by code point: A to Z, and the accented capitals of
    Latin-1. *)
Definition letter_pairs : list (N * N) :=
  [
    (65, 97); (66, 98); (67, 99); (68, 100); (69, 101); (70, 102);
    (71, 103); (72, 104); (73, 105); (74, 106); (75, 107); (76, 108);
    (77, 109); (78, 110); (79, 111); (80, 112); (81, 113); (82, 114);
    (83, 115); (84, 116); (85, 117); (86, 118); (87, 119); (88, 120);
    (89, 121); (90, 122); (192, 224); (193, 225); (194, 226); (195, 227);
    (196, 228); (197, 229); (198, 230); (199, 231); (200, 232); (201, 233);
    (202, 234); (203, 235); (204, 236); (205, 237); (206, 238); (207, 239);
    (208, 240); (209, 241); (210, 242); (211, 243); (212, 244); (213, 245);
    (214, 246); (216, 248); (217, 249); (218, 250); (219, 251); (220, 252);
    (221, 253); (222, 254)
  ]%N.

Fixpoint partner (n : N) (pairs : list (N * N)) : option N :=
  match pairs with
  | [] => None
  | (capital, small) :: rest => if (n =? capital)%N then Some small else partner n rest
  end.

Definition lowercase_char (c : ascii) : ascii :=
  match partner (code c) letter_pairs with
  | Some small => ascii_of_N small
  | None => c
  end.

Fixpoint lowercase (s : string) : string :=
  match s with
  | EmptyString => EmptyString
  | String c s' => String (lowercase_char c) (lowercase s')
  end.

(** "whitespace": the separating characters, by code point. *)
Definition whitespace_codes : list N :=
  [9; 10; 11; 12; 13; 28; 29; 30; 31; 32; 133; 160]%N.

Definition whitespace (c : ascii) : bool :=
  bool_decide (code c ∈ whitespace_codes).

Fixpoint every (P : ascii → bool) (s : string) : bool :=
  match s with
  | EmptyString => true
  | String c s' => P c && every P s'
  end.

(** A word ends where the text ends or a whitespace character follows. *)
Definition ends_word (rest : string) : Prop :=
  match rest with
  | EmptyString => True
  | String c _ => whitespace c = true
  end.

(** "split it on whitespace": the text is whitespace, then a word, then
    whitespace, and so on; a word is a non-empty run of characters that are
    not whitespace and that ends at the next whitespace or at the end of the
    text.  [words_between_whitespace text words] says that [words] are the
    words of [text], in order. *)
Inductive words_between_whitespace : string → list string → Prop :=
  | no_more_words (gap : string) :
      every whitespace gap = true →
      words_between_whitespace gap []
  | next_word (gap w rest : string) (ws : list string) :
      every whitespace gap = true →
      w ≠ EmptyString →
      every (λ c, negb (whitespace c)) w = true →
      ends_word rest →
      words_between_whitespace rest ws →
      words_between_whitespace (gap +:+ w +:+ rest) (w :: ws).

(** "lowercase text, split it on whitespace, map each resulting word ...,
    left-pad ..., and feed exactly that one padded row to model.predict":
    [batch] is the described input of [text]. *)
Definition described (raw : gmap string Z) (text : string) (batch : list (list Z)) : Prop :=
  ∃ words,
    words_between_whitespace (lowercase text) words ∧
    batch = [left_pad 200 (shifted_lookup raw <$> words)].

(** [word_index[word]]: the lookup as the dictionary itself does it, with no
    default supplied by the caller; a missing key raises. *)
Definition subscript (raw : gmap string Z) (word : string) : outcome Z :=
  match word_index raw !! word with
  | Some v => Returned v
  | None => Raised (KeyError word)
  end.

(** "The repository's own code performs no out-of-vocabulary handling": the
    code would leave every word to the dictionary's own lookup. *)
Definition no_oov_handling (raw : gmap string Z) : Prop :=
  ∀ word, Returned (get_index raw word) = subscript raw word.

(** "strictly greater than 0.5", on the number the float denotes. *)
Definition above_half (p : float) : Prop :=
  match p with
  | Finite q => (1 # 2 < q)%Q
  | Infinity negative => negative = false
  | NaN => False
  end.

(** A word without an upper-case letter. *)
Fixpoint no_upper (s : string) : bool :=
  match s with
  | EmptyString => true
  | String c s' => negb (is_upper c) && no_upper s'
  end.

(** A text without a word: only separators, or nothing at all. *)
Fixpoint all_space (s : string) : bool :=
  match s with
  | EmptyString => true
  | String c s' => isspace c && all_space s'
  end.

(** A label is 0 (negative) or 1 (positive). *)
Definition binary (label : Z) : Prop := label = 0 ∨ label = 1.

(** A token the embedding table has a row for. *)
Definition valid_index (i : Z) : Prop := 0 ≤ i < max_features.

(** [m] leaves the part [f] of the notebook as it found it, whether it
    returns or raises. *)
Definition preserves {F : framework} {A B : Type} (f : notebook F → A) (m : M F B) : Prop :=
  ∀ nb, f (m nb).2 = f nb.

(** The two label arrays, as one part of the notebook. *)
Definition labels {F : framework} (nb : notebook F) : list Z * list Z :=
  (y_train nb, y_test nb).

(** ** Further vocabulary for the properties of the cells *)

(** The keys of the four assignments of lines 341-344. *)
Definition reserved : list string := ["<PAD>"; "<START>"; "<UNK>"; "<UNUSED>"].

(** A word without a separator. *)
Fixpoint no_space (s : string) : bool :=
  match s with
  | EmptyString => true
  | String c s' => negb (isspace c) && no_space s'
  end.

(** The characters of a text that are not separators, in order. *)
Fixpoint remove_spaces (s : string) : string :=
  match s with
  | EmptyString => EmptyString
  | String c s' => if isspace c then remove_spaces s' else String c (remove_spaces s')
  end.

(** The words of a list written one after the other. *)
Definition join (ws : list string) : string := foldr String.append EmptyString ws.

(** The notebook after [lines] have been printed. *)
Definition printed {F : framework} (nb : notebook F) (lines : list string) : notebook F :=
  Build_notebook F (x_train nb) (y_train nb) (x_test nb) (y_test nb) (model nb)
    (stdout nb ++ lines).

(** The three lines of lines 359-365 for a text and its probability. *)
Definition report_lines (text : string) (p : float) : list string :=
  [nl +:+ "Review: '" +:+ text +:+ "'";
   "Positive Sentiment Probability: " +:+ format4 p;
   if gt p (5 # 10)
   then "Result: Positive sentiment 😊"
   else "Result: Negative sentiment 😞"].

(** The six lines of the data cell for [n_train] and [n_test] reviews. *)
Definition data_lines (n_train n_test : nat) : list string :=
  ["Loading data...";
   pretty n_train +:+ " train sequences";
   pretty n_test +:+ " test sequences";
   nl +:+ "Pad sequences (samples x time)";
   "x_train shape: (" +:+ pretty n_train +:+ ", 200)";
   "x_test shape: (" +:+ pretty n_test +:+ ", 200)"].

(** A word index cut down to words the model has rows for. *)
Definition top_sample : gmap string Z :=
  list_to_map [("the", 1); ("and", 2); ("a", 3); ("film", 19); ("woods", 1408)].

(** The small framework without a network: both downloads raise. *)
Definition offline : framework := {|
  vec := Z;
  weights := Z;
  initial := λ _, 2;
  table_row := λ _ i, i;
  recurrent_dense := λ w _, Finite (w # 4);
  optimizer := λ w _ _ _ _ _, (Returned tt, w + 1);
  metrics := λ _ _ _ _, Returned (Finite (575 # 1000), Finite (8465 # 10000));
  load_data := λ _, Raised (FrameworkError "no network");
  get_word_index := Raised (FrameworkError "no network")
|}.

(** Cells 2 to 5 in the order of the notebook: data, model, training,
    evaluation. *)
Definition cells_2_to_5 (F : framework) : M F unit :=
  bind F (cell_data F) (λ _,
    bind F (cell_model F) (λ _,
      bind F (cell_train F) (λ _, cell_evaluate F))).

(** The notebook without a network, before the first cell. *)
Definition unplugged : notebook offline :=
  Build_notebook offline [] [] [] [] 0 [].

(** The two reviews of lines 368-369. *)
Definition review_1 : string :=
  "This was an absolutely fantastic film with brilliant acting and a great plot".

Definition review_2 : string :=
  "The movie was a complete waste of time boring and predictable".

(** The first exception a framework call raises when the calls are made in
    the order of the notebook, each with the results of the calls before it:
    the download of the data, training on the padded training reviews,
    evaluation of the trained parameters on the padded test reviews, the
    download of the word index, and the prediction for each of the two
    reviews.  [None] when every call returns. *)
Definition first_failure (F : framework) : option exn :=
  match load_data F max_features with
  | Raised e => Some e
  | Returned d =>
      let r := optimizer F (initial F model_layers)
                 (pad_sequences d.1.1 maxlen) d.1.2 32 5 (2 # 10) in
      match r.1 with
      | Raised e => Some e
      | Returned _ =>
          match metrics F r.2 (pad_sequences d.2.1 maxlen) d.2.2 32 with
          | Raised e => Some e
          | Returned _ =>
              match get_word_index F with
              | Raised e => Some e
              | Returned raw =>
                  match forward F r.2 (pad_sequences [sequence_of raw review_1] maxlen) with
                  | Raised e => Some e
                  | Returned _ =>
                      match forward F r.2 (pad_sequences [sequence_of raw review_2] maxlen) with
                      | Raised e => Some e
                      | Returned _ => None
                      end
                  end
              end
          end
      end
  end.

(** Modelled from the spec: [imdb.load_data] is the framework's and is not in
    the notebook.  The data model has a "Label: a binary value (0 =
    negative, 1 = positive) associated one-to-one with each review".  A
    corpus is a list of reviews, each with its sentiment; the loader hands it
    over as an array of reviews and an array of labels, in the same order. *)
Inductive sentiment : Set := Negative | Positive.

Definition label_code (s : sentiment) : Z :=
  match s with
  | Negative => 0
  | Positive => 1
  end.

Definition arrays (corpus : list (list Z * sentiment)) : list (list Z) * list Z :=
  (fst <$> corpus, (λ sample, label_code sample.2) <$> corpus).

Definition loaded (train test : list (list Z * sentiment)) : dataset :=
  (arrays train, arrays test).

(** A character that is one of the capital letters A to Z. *)
Definition ascii_capital (c : ascii) : bool :=
  ((65 <=? code c) && (code c <=? 90))%N.

(** * Properties *)

(** ** Lower-casing and splitting *)

Lemma lower_char_not_upper (c : ascii) : is_upper (lower_char c) = false.
Proof. destruct c as [[] [] [] [] [] [] [] []]; reflexivity. Qed.

Lemma no_upper_lower (s : string) : no_upper (lower s) = true.
Proof.
  induction s as [|c s IH]; simpl; [done|].
  by rewrite lower_char_not_upper, IH.
Qed.

Lemma no_upper_app (s1 s2 : string) :
  no_upper (s1 +:+ s2) = no_upper s1 && no_upper s2.
Proof.
  induction s1 as [|c s1 IH]; simpl; [done|].
  by rewrite IH, andb_assoc.
Qed.

Lemma split_from_no_upper (s cur : string) :
  no_upper cur = true → no_upper s = true →
  Forall (λ w, no_upper w = true) (split_from cur s).
Proof.
  revert cur. induction s as [|c s IH]; intros cur Hcur Hs; simpl in *.
  - destruct cur; [constructor|].
    constructor; [done | constructor].
  - apply andb_prop in Hs as [Hc Hs].
    destruct (isspace c).
    + destruct cur as [|d cur].
      * by apply IH.
      * constructor; [done | by apply IH].
    + apply IH; [|done]. rewrite no_upper_app, Hcur. simpl. by rewrite Hc.
Qed.

Lemma words_of_no_upper (text : string) :
  Forall (λ w, no_upper w = true) (words_of text).
Proof.
  apply split_from_no_upper; [done | apply no_upper_lower].
Qed.

Lemma all_space_lower (s : string) : all_space s = true → all_space (lower s) = true.
Proof.
  induction s as [|c s IH]; simpl; [done|].
  intros [Hc Hs]%andb_prop. rewrite (IH Hs), andb_true_r.
  revert Hc. destruct c as [[] [] [] [] [] [] [] []]; by vm_compute.
Qed.

Lemma split_all_space (s : string) : all_space s = true → split s = [].
Proof.
  unfold split. induction s as [|c s IH]; simpl; [done|].
  intros [Hc Hs]%andb_prop. rewrite Hc. by apply IH.
Qed.

Lemma words_of_all_space (text : string) : all_space text = true → words_of text = [].
Proof. intros H. apply split_all_space, all_space_lower, H. Qed.

Example words_of_example :
  words_of "  This was  an Absolutely FANTASTIC film " =
  ["this"; "was"; "an"; "absolutely"; "fantastic"; "film"].
Proof. reflexivity. Qed.

(** ** The vocabulary lookup *)

(** The four reserved keys are written in capitals, so no lower-cased word
    is one of them: the lookup of such a word reads the shifted index. *)
Lemma get_index_shifted (raw : gmap string Z) (w : string) :
  no_upper w = true → get_index raw w = shifted_lookup raw w.
Proof.
  intros Hw. unfold get_index, word_index, shifted_lookup.
  rewrite !lookup_insert_ne by (intros <-; discriminate Hw).
  rewrite lookup_fmap. by destruct (raw !! w).
Qed.

Lemma sequence_of_shifted (raw : gmap string Z) (text : string) :
  sequence_of raw text = shifted_lookup raw <$> words_of text.
Proof.
  unfold sequence_of. apply Forall_fmap_ext_1.
  eapply Forall_impl; [apply words_of_no_upper|].
  intros w Hw. by apply get_index_shifted.
Qed.

Lemma shifted_lookup_range (raw : gmap string Z) (w : string) :
  map_Forall (λ _ v, 1 ≤ v) raw →
  shifted_lookup raw w = 2 ∨ 4 ≤ shifted_lookup raw w.
Proof.
  intros Hraw. unfold shifted_lookup.
  destruct (raw !! w) as [v|] eqn:E; [|by left].
  right. specialize (Hraw _ _ E). simpl in Hraw. lia.
Qed.

Example sequence_of_example :
  sequence_of imdb_sample "The film was fawn  WOODS zzz" = [4; 22; 16; 34704; 1411; 2].
Proof. reflexivity. Qed.

(** C9: with the ranks of the word index starting at 1, as the framework
    gives them, the token sequence [predict_sentiment] builds holds one token
    per word, each either the unknown index 2 or an index of 4 and more; the
    reserved indices 0, 1 and 3 never occur in it, so no start token stands
    in front. *)
Theorem C9_sequence_avoids_reserved (raw : gmap string Z) (text : string) :
  map_Forall (λ _ v, 1 ≤ v) raw →
  length (sequence_of raw text) = length (words_of text) ∧
  Forall (λ i, i = 2 ∨ 4 ≤ i) (sequence_of raw text) ∧
  (0 ∉ sequence_of raw text) ∧
  (1 ∉ sequence_of raw text) ∧
  (3 ∉ sequence_of raw text).
Proof.
  intros Hraw.
  assert (Hall : Forall (λ i, i = 2 ∨ 4 ≤ i) (sequence_of raw text)).
  { rewrite sequence_of_shifted. apply Forall_fmap, Forall_true.
    intros w. by apply shifted_lookup_range. }
  split; [apply length_fmap|].
  split; [done|].
  rewrite Forall_forall in Hall.
  repeat split; intros Hin; apply Hall in Hin; lia.
Qed.

Lemma imdb_sample_ranks : map_Forall (λ _ v, 1 ≤ v) imdb_sample.
Proof.
  apply map_Forall_to_list. vm_compute.
  repeat (constructor; [discriminate|]). constructor.
Defined.

Lemma C9_sequence_avoids_reserved_witness :
  length (sequence_of imdb_sample "The film was fawn  WOODS zzz")
    = length (words_of "The film was fawn  WOODS zzz") ∧
  Forall (λ i, i = 2 ∨ 4 ≤ i) (sequence_of imdb_sample "The film was fawn  WOODS zzz") ∧
  (0 ∉ sequence_of imdb_sample "The film was fawn  WOODS zzz") ∧
  (1 ∉ sequence_of imdb_sample "The film was fawn  WOODS zzz") ∧
  (3 ∉ sequence_of imdb_sample "The film was fawn  WOODS zzz").
Proof.
  apply (C9_sequence_avoids_reserved imdb_sample "The film was fawn  WOODS zzz").
  apply imdb_sample_ranks.
Defined.

(** ** The padding step *)

Lemma pad_row_length (padding truncating : side) (value : Z) (n : nat) (s : list Z) :
  length (pad_row padding truncating value n s) = n.
Proof.
  unfold pad_row.
  destruct padding, truncating;
    rewrite length_app, length_replicate, ?length_drop, ?length_take; lia.
Qed.

Lemma pad_row_short (s : list Z) (n : nat) :
  (length s ≤ n)%nat → pad_row Pre Pre 0 n s = replicate (n - length s) 0 ++ s.
Proof.
  intros H. unfold pad_row.
  replace (length s - n)%nat with 0%nat by lia. by rewrite drop_0.
Qed.

Lemma pad_row_long (s : list Z) (n : nat) :
  (n ≤ length s)%nat → pad_row Pre Pre 0 n s = drop (length s - n) s.
Proof.
  intros H. unfold pad_row. rewrite length_drop.
  by replace (n - (length s - (length s - n)))%nat with 0%nat by lia.
Qed.

Lemma pad_row_left_pad (s : list Z) (n : nat) :
  pad_row Pre Pre 0 n s = left_pad n s.
Proof.
  unfold left_pad.
  destruct (decide (length s ≤ n)%nat) as [H|H].
  - rewrite pad_row_short by done.
    replace (length s - n)%nat with 0%nat by lia. by rewrite drop_0.
  - rewrite pad_row_long by lia.
    by replace (n - length s)%nat with 0%nat by lia.
Qed.

Lemma pad_sequences_lookup (seqs : list (list Z)) (n i : nat) :
  pad_sequences seqs n !! i = pad_row Pre Pre 0 n <$> seqs !! i.
Proof. apply list_lookup_fmap. Qed.

Lemma pad_sequences_length (seqs : list (list Z)) (n : nat) :
  length (pad_sequences seqs n) = length seqs.
Proof. apply length_fmap. Qed.

Example pad_row_example_short : pad_row Pre Pre 0 5 [7; 8; 9] = [0; 0; 7; 8; 9].
Proof. reflexivity. Qed.

Example pad_row_example_long : pad_row Pre Pre 0 3 [5; 6; 7; 8; 9] = [7; 8; 9].
Proof. reflexivity. Qed.

(** ** Indices beyond the embedding table *)

(** A word of the index whose rank is above [max_features - 4] gets an index
    the 10,000-row table has no row for. *)
Lemma rare_word_index (raw : gmap string Z) (w : string) (rank : Z) :
  no_upper w = true → raw !! w = Some rank → max_features - 3 ≤ rank →
  ¬ valid_index (get_index raw w).
Proof.
  intros Hw Hraw Hrank. rewrite get_index_shifted by done.
  unfold shifted_lookup, valid_index. rewrite Hraw. lia.
Qed.

(** C2 at the text "fawn": the word has rank 34701, the lookup gives 34704,
    which is no row of the 10,000-row table, and the padded row that goes to
    the model holds it. *)
Theorem C2_rare_word_outside_table :
  imdb_sample !! "fawn" = Some 34701 ∧
  sequence_of imdb_sample "fawn" = [34704] ∧
  ¬ valid_index 34704 ∧
  ∃ row, pad_sequences [sequence_of imdb_sample "fawn"] maxlen = [row] ∧
         34704 ∈ row ∧ ¬ Forall valid_index row.
Proof.
  split; [reflexivity|].
  split; [reflexivity|].
  assert (Hbad : ¬ valid_index 34704) by (unfold valid_index, max_features; lia).
  split; [done|].
  exists (replicate 199 0 ++ [34704]).
  split; [reflexivity|].
  assert (Hin : 34704 ∈ replicate 199 0 ++ [34704]).
  { apply elem_of_app. right. apply list_elem_of_singleton. reflexivity. }
  split; [done|].
  intros Hall. rewrite Forall_forall in Hall. by apply Hbad, Hall.
Qed.

(** ** Unknown words and exceptions *)

(** C4 as stated ("no out-of-vocabulary handling in the repository's code")
    fails at the word "zzz": the dictionary has no such key and its own
    lookup raises, while the code's lookup supplies the index 2. *)
Lemma C4_unknown_word_handled_by_code :
  word_index imdb_sample !! "zzz" = None ∧
  subscript imdb_sample "zzz" = Raised (KeyError "zzz") ∧
  get_index imdb_sample "zzz" = 2 ∧
  sequence_of imdb_sample "zzz" = [2] ∧
  ¬ no_oov_handling imdb_sample.
Proof.
  repeat split; try reflexivity.
  intros H. specialize (H "zzz"). discriminate H.
Qed.

Lemma predict_sentiment_raises (F : framework) (raw : gmap string Z)
    (text : string) (nb : notebook F) (e : exn) :
  forward F (model nb) (pad_sequences [sequence_of raw text] maxlen) = Raised e →
  predict_sentiment F raw text nb = (Raised e, nb).
Proof.
  intros H. unfold predict_sentiment, bind, model_predict.
  fold (words_of text). fold (sequence_of raw text). by rewrite H.
Qed.

(** ** The layer stack *)

Lemma sigmoid_range (x : R) : (0 <= sigmoid x <= 1)%R.
Proof.
  unfold sigmoid. pose proof (exp_pos (- x)) as He.
  split.
  - apply Rlt_le, Rdiv_lt_0_compat; lra.
  - unfold Rdiv. rewrite Rmult_1_l. rewrite <- Rinv_1 at 2.
    apply Rinv_le_contravar; lra.
Qed.

Lemma resize_length_R (n : nat) (x : list R) : length (resize n 0%R x) = n.
Proof. apply length_resize. Qed.

Lemma valid_tokens_pass (ts : list Z) :
  Forall valid_index ts → forallb (λ i, (0 <=? i) && (i <? 10000)) ts = true.
Proof.
  intros H. apply forallb_forall. intros i Hi.
  rewrite Forall_forall in H. apply list_elem_of_In, H in Hi.
  unfold valid_index, max_features in Hi. apply andb_true_intro. split; lia.
Qed.

Lemma dense_one_unit (act : activation) (kernel : list (list R)) (bias : list R)
    (x : list R) :
  ∃ w b, apply_layer (Dense 1 act) (DenseW kernel bias) (Vector x)
         = Some (Vector [activate act (dot w x + b)%R]).
Proof.
  exists (hd [] kernel), (hd 0%R bias).
  cbn [apply_layer]. change (Z.to_nat 1) with 1%nat.
  destruct kernel, bias; cbn [resize replicate]; rewrite ?resize_0; reflexivity.
Qed.

Example summary_as_printed :
  summary 0 model_layers = [(128, 1280000); (128, 98816); (1, 129)] ∧
  foldr Z.add 0 ((summary 0 model_layers).*2) = 1378945.
Proof. split; reflexivity. Qed.

(** C5: the model is the stack of exactly three layers, in this order: an
    embedding with a 10000-by-128 table, a bidirectional LSTM of 64 units per
    direction, and a dense layer of one unit with sigmoid activation.  Run on
    the tokens of a review that are rows of the table, the embedding gives
    one vector of 128 numbers per token, the bidirectional layer gives the 64
    features of the forward pass followed by the 64 of the backward pass over
    the reversed sequence, 128 in all, and the dense layer gives a single
    number, the sigmoid of a weighted sum of these features, which lies in
    [0,1].  Whatever the parameters, an output of the stack is a single
    number in [0,1]. *)
Theorem C5_model_layers :
  model_layers = [Embedding 10000 128; Bidirectional (LSTM 64); Dense 1 Sigmoid] ∧
  length model_layers = 3%nat ∧
  embedding_rows model_layers = 10000 ∧
  (∀ (table : Z → list R) (fw bw : list (list R) → list R)
     (kernel : list (list R)) (bias : list R) (ts : list Z),
     Forall valid_index ts →
     ∃ (xs : list (list R)) (f b : list R) (w : list R) (c : R),
       apply_layer (Embedding 10000 128) (EmbeddingW table) (Tokens ts)
         = Some (Sequence xs) ∧
       length xs = length ts ∧
       Forall (λ x, length x = 128%nat) xs ∧
       apply_layer (LSTM 64) (LSTMW fw) (Sequence xs) = Some (Vector f) ∧
       apply_layer (LSTM 64) (LSTMW bw) (Sequence (reverse xs)) = Some (Vector b) ∧
       length f = 64%nat ∧ length b = 64%nat ∧
       apply_layer (Bidirectional (LSTM 64)) (BidirectionalW (LSTMW fw) (LSTMW bw))
         (Sequence xs) = Some (Vector (f ++ b)) ∧
       Z.of_nat (length (f ++ b)) = features 128 (Bidirectional (LSTM 64)) ∧
       length (f ++ b) = 128%nat ∧
       run_layers model_layers
         [EmbeddingW table; BidirectionalW (LSTMW fw) (LSTMW bw); DenseW kernel bias]
         (Tokens ts) = Some (Vector [sigmoid (dot w (f ++ b) + c)]) ∧
       (0 <= sigmoid (dot w (f ++ b) + c) <= 1)%R) ∧
  (∀ (ps : list layer_weights) (ts : list Z) (out : value),
     run_layers model_layers ps (Tokens ts) = Some out →
     ∃ p : R, out = Vector [p] ∧ (0 <= p <= 1)%R).
Proof.
  split; [reflexivity|]. split; [reflexivity|]. split; [reflexivity|]. split.
  - intros table fw bw kernel bias ts Hts.
    pose proof (valid_tokens_pass ts Hts) as Hpass.
    set (xs := (λ i, resize 128 0%R (table i)) <$> ts).
    set (f := resize 64 0%R (fw xs)).
    set (b := resize 64 0%R (bw (reverse xs))).
    destruct (dense_one_unit Sigmoid kernel bias (f ++ b)) as (w & c & Hdense).
    exists xs, f, b, w, c.
    assert (Hf : length f = 64%nat) by apply length_resize.
    assert (Hb : length b = 64%nat) by apply length_resize.
    assert (Hemb : apply_layer (Embedding 10000 128) (EmbeddingW table) (Tokens ts)
                   = Some (Sequence xs)).
    { cbn [apply_layer]. by rewrite Hpass. }
    assert (Hbi : apply_layer (Bidirectional (LSTM 64))
                    (BidirectionalW (LSTMW fw) (LSTMW bw)) (Sequence xs)
                  = Some (Vector (f ++ b))) by reflexivity.
    split_and!.
    + exact Hemb.
    + unfold xs. apply length_fmap.
    + unfold xs. apply Forall_fmap, Forall_true. intros i. apply length_resize.
    + reflexivity.
    + reflexivity.
    + exact Hf.
    + exact Hb.
    + exact Hbi.
    + rewrite length_app, Hf, Hb. reflexivity.
    + by rewrite length_app, Hf, Hb.
    + unfold model_layers, add, Sequential. cbn [app run_layers].
      unfold max_features. rewrite Hemb, Hbi, Hdense. reflexivity.
    + apply sigmoid_range.
    + apply sigmoid_range.
  - intros ps ts out.
    unfold model_layers, add, Sequential, max_features. cbn [app].
    destruct ps as [|p1 [|p2 [|p3 [|p4 ps]]]]; cbn [run_layers]; try discriminate;
      try (destruct (apply_layer _ p1 _) as [v1|]; [|discriminate];
           try (destruct (apply_layer _ p2 _) as [v2|]; [|discriminate]);
           try (destruct (apply_layer _ p3 _) as [v3|]; discriminate);
           discriminate).
    destruct (apply_layer (Embedding 10000 128) p1 (Tokens ts)) as [v1|]; [|discriminate].
    destruct (apply_layer (Bidirectional (LSTM 64)) p2 v1) as [v2|]; [|discriminate].
    destruct p3 as [| | |kernel bias]; destruct v2 as [| |x];
      cbn [apply_layer]; try discriminate.
    intros [= <-].
    destruct (dense_one_unit Sigmoid kernel bias x) as (w & c & Hdense).
    cbn [apply_layer] in Hdense. injection Hdense as ->.
    eexists. split; [reflexivity|]. apply sigmoid_range.
Qed.

(** ** What a cell leaves unchanged *)

Lemma preserves_bind {F : framework} {A B C : Type} (f : notebook F → C)
    (m : M F A) (k : A → M F B) :
  preserves f m → (∀ a, preserves f (k a)) → preserves f (bind F m k).
Proof.
  intros Hm Hk nb. unfold bind.
  specialize (Hm nb). destruct (m nb) as [[a|e] nb']; simpl in *.
  - by rewrite Hk.
  - done.
Qed.

(** Splits a cell into its calls; each call is settled by evaluation. *)
Ltac frame :=
  repeat lazymatch goal with
    | |- preserves _ (bind _ _ _) => apply preserves_bind; [|intros ?]
    | |- preserves _ (if ?b then _ else _) => destruct b
    | |- preserves _ _ => by intros ?
    end.

Lemma predict_sentiment_frame {F : framework} {C : Type} (f : notebook F → C)
    (raw : gmap string Z) (text : string) :
  (∀ line, preserves f (print F line)) →
  preserves f (predict_sentiment F raw text).
Proof.
  intros Hprint. unfold predict_sentiment. cbv zeta.
  apply preserves_bind; [by intros ?|]. intros prediction.
  apply preserves_bind; [by intros ?|]. intros probability.
  apply preserves_bind; [apply Hprint|]. intros _.
  apply preserves_bind; [apply Hprint|]. intros _.
  destruct (gt probability (5 # 10)); apply Hprint.
Qed.

Lemma cell_predict_frame {F : framework} {C : Type} (f : notebook F → C) :
  (∀ line, preserves f (print F line)) → preserves f (cell_predict F).
Proof.
  intros Hprint. unfold cell_predict.
  apply preserves_bind; [by intros ?|]. intros raw.
  apply preserves_bind; [by apply predict_sentiment_frame|]. intros _.
  by apply predict_sentiment_frame.
Qed.

Lemma cell_evaluate_frame {F : framework} {C : Type} (f : notebook F → C) :
  (∀ line, preserves f (print F line)) → preserves f (cell_evaluate F).
Proof.
  intros Hprint. unfold cell_evaluate.
  apply preserves_bind; [by intros ?|]. intros x.
  apply preserves_bind; [by intros ?|]. intros y.
  apply preserves_bind; [by intros ?|]. intros r.
  apply preserves_bind; [apply Hprint|]. intros _. apply Hprint.
Qed.

Lemma cell_train_labels (F : framework) : preserves labels (cell_train F).
Proof. unfold cell_train. frame. Qed.

Lemma cell_train_model (F : framework) (nb : notebook F) :
  model (cell_train F nb).2
    = (optimizer F (model nb) (x_train nb) (y_train nb) 32 5 (2 # 10)).2.
Proof.
  unfold cell_train, bind, model_fit, print, read, assign_model, lift. simpl.
  by destruct (optimizer F (model nb) (x_train nb) (y_train nb) 32 5 (2 # 10)) as [[] w].
Qed.

Lemma cell_data_returns (F : framework) (nb : notebook F) (d : dataset) :
  load_data F max_features = Returned d →
  (cell_data F nb).1 = Returned tt ∧
  x_train (cell_data F nb).2 = pad_sequences d.1.1 maxlen ∧
  y_train (cell_data F nb).2 = d.1.2 ∧
  x_test (cell_data F nb).2 = pad_sequences d.2.1 maxlen ∧
  y_test (cell_data F nb).2 = d.2.2 ∧
  model (cell_data F nb).2 = model nb.
Proof.
  intros H. unfold cell_data, bind, lift, print. rewrite H.
  repeat split; reflexivity.
Qed.

Lemma run_all_after_data (F : framework) (nb : notebook F) (d : dataset) :
  load_data F max_features = Returned d →
  run_all F nb =
    bind F (cell_model F) (λ _,
      bind F (cell_train F) (λ _,
        bind F (cell_evaluate F) (λ _, cell_predict F))) (cell_data F nb).2.
Proof.
  intros H. destruct (cell_data_returns F nb d H) as [Hret _].
  unfold run_all. unfold bind at 1.
  destruct (cell_data F nb) as [[[]|e] nb']; simpl in *; [done | discriminate].
Qed.

Lemma after_data_frame {F : framework} {C : Type} (f : notebook F → C) :
  (∀ line, preserves f (print F line)) →
  (∀ w, preserves f (assign_model F w)) →
  preserves f
    (bind F (cell_model F) (λ _,
       bind F (cell_train F) (λ _,
         bind F (cell_evaluate F) (λ _, cell_predict F)))).
Proof.
  intros Hprint Hmodel.
  apply preserves_bind; [apply Hmodel|]. intros _.
  apply preserves_bind.
  { unfold cell_train.
    apply preserves_bind; [apply Hprint|]. intros _.
    apply preserves_bind; [by intros ?|]. intros x.
    apply preserves_bind; [by intros ?|]. intros y.
    intros nb. unfold model_fit, bind, lift.
    destruct (optimizer F (model nb) x y 32 5 (2 # 10)) as [o w]. simpl.
    apply Hmodel. }
  intros _.
  apply preserves_bind; [by apply cell_evaluate_frame|]. intros _.
  by apply cell_predict_frame.
Qed.

(** C1: the padding step with [maxlen = 200] turns any list of token
    sequences into as many rows, every row of exactly 200 entries; the row of
    a sequence shorter than 200 is that sequence behind zeros on the left,
    a sequence of exactly 200 is its own row, and the row of a longer
    sequence is 200 of its tokens (its last 200).  The data cell stores the
    padding of the loaded reviews in [x_train] and [x_test], and
    [predict_sentiment] pads its single sequence to one row of 200. *)
Theorem C1_pad_sequences_rectangular (seqs : list (list Z)) :
  length (pad_sequences seqs maxlen) = length seqs ∧
  Forall (λ row, length row = 200%nat) (pad_sequences seqs maxlen) ∧
  (∀ (i : nat) (s : list Z), seqs !! i = Some s →
    ∃ row, pad_sequences seqs maxlen !! i = Some row ∧
      length row = 200%nat ∧
      ((length s < 200)%nat → row = replicate (200 - length s) 0 ++ s) ∧
      (length s = 200%nat → row = s) ∧
      ((200 < length s)%nat → row = drop (length s - 200) s)) ∧
  (∀ (F : framework) (nb : notebook F) (d : dataset),
     load_data F max_features = Returned d →
     x_train (cell_data F nb).2 = pad_sequences d.1.1 maxlen ∧
     x_test (cell_data F nb).2 = pad_sequences d.2.1 maxlen) ∧
  (∀ (raw : gmap string Z) (text : string),
     ∃ row, pad_sequences [sequence_of raw text] maxlen = [row] ∧
            length row = 200%nat).
Proof.
  split; [apply pad_sequences_length|].
  split; [apply Forall_fmap, Forall_true; intros s; apply pad_row_length|].
  split; [|split].
  - intros i s Hs. exists (pad_row Pre Pre 0 maxlen s).
    rewrite pad_sequences_lookup, Hs.
    split; [done|].
    split; [apply pad_row_length|].
    unfold maxlen. split_and!; intros H.
    + apply pad_row_short. lia.
    + rewrite pad_row_short by lia.
      by replace (200 - length s)%nat with 0%nat by lia.
    + apply pad_row_long. lia.
  - intros F nb d Hload.
    destruct (cell_data_returns F nb d Hload) as (_ & Hx1 & _ & Hx2 & _).
    done.
  - intros raw text. eexists. split; [reflexivity|]. apply pad_row_length.
Qed.

(** ** Labels *)

Lemma label_code_binary (corpus : list (list Z * sentiment)) :
  Forall binary ((arrays corpus).2).
Proof.
  unfold arrays. cbn [snd]. apply Forall_fmap, Forall_true.
  intros [review []]; [by left | by right].
Qed.

Lemma arrays_lookup (corpus : list (list Z * sentiment)) (i : nat)
    (review : list Z) (s : sentiment) :
  corpus !! i = Some (review, s) →
  (arrays corpus).1 !! i = Some review ∧ (arrays corpus).2 !! i = Some (label_code s).
Proof.
  intros H. unfold arrays. cbn [fst snd]. by rewrite !list_lookup_fmap, H.
Qed.

(** C6: the loader hands over a corpus of reviews with their sentiments as
    arrays of reviews and of labels.  After the whole notebook (also when a
    later cell raises) the label arrays are the labels of the corpus: every
    label is 0 or 1, there is one label per padded review, and at every
    position the padded review is the padding of the review of the corpus at
    that position and the label is the code of its sentiment.  The padding
    assignments, the training cell, the evaluation cell and the prediction
    cell each leave both label arrays unchanged. *)
Theorem C6_labels_unchanged (F : framework) (nb : notebook F)
    (train test : list (list Z * sentiment)) :
  load_data F max_features = Returned (loaded train test) →
  y_train (run_all F nb).2 = (λ sample, label_code sample.2) <$> train ∧
  y_test (run_all F nb).2 = (λ sample, label_code sample.2) <$> test ∧
  Forall binary (y_train (run_all F nb).2) ∧
  Forall binary (y_test (run_all F nb).2) ∧
  length (x_train (run_all F nb).2) = length (y_train (run_all F nb).2) ∧
  length (x_test (run_all F nb).2) = length (y_test (run_all F nb).2) ∧
  (∀ (i : nat) (review : list Z) (s : sentiment),
     train !! i = Some (review, s) →
     x_train (run_all F nb).2 !! i = Some (pad_row Pre Pre 0 200 review) ∧
     y_train (run_all F nb).2 !! i = Some (label_code s)) ∧
  (∀ (i : nat) (review : list Z) (s : sentiment),
     test !! i = Some (review, s) →
     x_test (run_all F nb).2 !! i = Some (pad_row Pre Pre 0 200 review) ∧
     y_test (run_all F nb).2 !! i = Some (label_code s)) ∧
  (∀ x, preserves labels (assign_x_train F x)) ∧
  (∀ x, preserves labels (assign_x_test F x)) ∧
  preserves labels (cell_train F) ∧
  preserves labels (cell_evaluate F) ∧
  preserves labels (cell_predict F).
Proof.
  intros Hload.
  destruct (cell_data_returns F nb _ Hload) as (_ & Hx1 & Hy1 & Hx2 & Hy2 & _).
  rewrite (run_all_after_data F nb _ Hload).
  assert (Hy : labels
      (bind F (cell_model F) (λ _,
         bind F (cell_train F) (λ _,
           bind F (cell_evaluate F) (λ _, cell_predict F))) (cell_data F nb).2).2
      = labels (cell_data F nb).2).
  { apply (after_data_frame labels); by intros ? ?. }
  assert (Hx : (λ n : notebook F, (x_train n, x_test n))
      (bind F (cell_model F) (λ _,
         bind F (cell_train F) (λ _,
           bind F (cell_evaluate F) (λ _, cell_predict F))) (cell_data F nb).2).2
      = (λ n : notebook F, (x_train n, x_test n)) (cell_data F nb).2).
  { apply (after_data_frame (λ n : notebook F, (x_train n, x_test n))); by intros ? ?. }
  unfold labels in Hy. simpl in Hx.
  injection Hy as Hy1' Hy2'. injection Hx as Hx1' Hx2'.
  rewrite Hy1', Hy2', Hx1', Hx2', Hx1, Hy1, Hx2, Hy2.
  rewrite !pad_sequences_length.
  change ((loaded train test).1.1) with ((arrays train).1).
  change ((loaded train test).1.2) with ((arrays train).2).
  change ((loaded train test).2.1) with ((arrays test).1).
  change ((loaded train test).2.2) with ((arrays test).2).
  split_and!.
  - reflexivity.
  - reflexivity.
  - apply label_code_binary.
  - apply label_code_binary.
  - unfold arrays. cbn [fst snd]. by rewrite !length_fmap.
  - unfold arrays. cbn [fst snd]. by rewrite !length_fmap.
  - intros i review s H. destruct (arrays_lookup train i review s H) as [E1 E2].
    split; [|done]. by rewrite pad_sequences_lookup, E1.
  - intros i review s H. destruct (arrays_lookup test i review s H) as [E1 E2].
    split; [|done]. by rewrite pad_sequences_lookup, E1.
  - by intros ? ?.
  - by intros ? ?.
  - apply cell_train_labels.
  - apply cell_evaluate_frame. by intros ? ?.
  - apply cell_predict_frame. by intros ? ?.
Qed.

Lemma C6_labels_unchanged_witness :
  y_train (run_all toy blank).2
    = (λ sample, label_code sample.2) <$> [([1; 14; 22], Positive); ([1; 5], Negative)] ∧
  y_test (run_all toy blank).2
    = (λ sample, label_code sample.2) <$> [([1; 7], Negative)] ∧
  Forall binary (y_train (run_all toy blank).2) ∧
  Forall binary (y_test (run_all toy blank).2) ∧
  length (x_train (run_all toy blank).2) = length (y_train (run_all toy blank).2) ∧
  length (x_test (run_all toy blank).2) = length (y_test (run_all toy blank).2) ∧
  (∀ (i : nat) (review : list Z) (s : sentiment),
     [([1; 14; 22], Positive); ([1; 5], Negative)] !! i = Some (review, s) →
     x_train (run_all toy blank).2 !! i = Some (pad_row Pre Pre 0 200 review) ∧
     y_train (run_all toy blank).2 !! i = Some (label_code s)) ∧
  (∀ (i : nat) (review : list Z) (s : sentiment),
     [([1; 7], Negative)] !! i = Some (review, s) →
     x_test (run_all toy blank).2 !! i = Some (pad_row Pre Pre 0 200 review) ∧
     y_test (run_all toy blank).2 !! i = Some (label_code s)) ∧
  (∀ x, preserves labels (assign_x_train toy x)) ∧
  (∀ x, preserves labels (assign_x_test toy x)) ∧
  preserves labels (cell_train toy) ∧
  preserves labels (cell_evaluate toy) ∧
  preserves labels (cell_predict toy).
Proof.
  apply (C6_labels_unchanged toy blank
           [([1; 14; 22], Positive); ([1; 5], Negative)] [([1; 7], Negative)]).
  reflexivity.
Defined.

(** ** The parameters of the model *)

Example training_writes_the_parameters :
  model (cell_train toy blank).2 = 1 ∧ model blank = 0.
Proof. split; reflexivity. Qed.

(** C7: [model.evaluate] and [model.predict] leave the parameters as they
    are, and so do the evaluation cell, every call of [predict_sentiment] and
    the prediction cell, whether they return or raise; the data cell does not
    touch them either.  The training cell is the one that writes them: after
    it, they are what the optimizer left behind. *)
Theorem C7_parameters_written_by_fit_only (F : framework) :
  (∀ x y batch_size, preserves model (model_evaluate F x y batch_size)) ∧
  (∀ batch, preserves model (model_predict F batch)) ∧
  preserves model (cell_evaluate F) ∧
  (∀ raw text, preserves model (predict_sentiment F raw text)) ∧
  preserves model (cell_predict F) ∧
  preserves model (bind F (cell_evaluate F) (λ _, cell_predict F)) ∧
  preserves model (cell_data F) ∧
  (∀ nb, model (cell_train F nb).2
         = (optimizer F (model nb) (x_train nb) (y_train nb) 32 5 (2 # 10)).2).
Proof.
  assert (Hprint : ∀ line, preserves model (print F line)) by (by intros ? ?).
  split_and!.
  - by intros x y b nb.
  - by intros batch nb.
  - by apply cell_evaluate_frame.
  - intros raw text. by apply predict_sentiment_frame.
  - by apply cell_predict_frame.
  - apply preserves_bind; [by apply cell_evaluate_frame|].
    intros _. by apply cell_predict_frame.
  - unfold cell_data. frame.
  - apply cell_train_model.
Qed.

(** ** The verdict *)

Lemma gt_above_half (p : float) : gt p (5 # 10) = true ↔ above_half p.
Proof.
  destruct p as [q|negative|]; simpl.
  - assert (E : (5 # 10 ?= q)%Q = (1 # 2 ?= q)%Q).
    { apply Qcompare_comp; [reflexivity | apply Qeq_refl]. }
    rewrite E, Qlt_alt. destruct (1 # 2 ?= q)%Q; split; congruence.
  - destruct negative; simpl; split; congruence.
  - split; [discriminate | contradiction].
Qed.

(** On a batch of one row, [model.predict] raises or returns one row of one
    probability: the hypothesis of the next two statements covers every run
    in which the call returns. *)
Lemma forward_one_row (F : framework) (w : weights F) (row : list Z) :
  (∃ e, forward F w [row] = Raised e) ∨ (∃ p, forward F w [row] = Returned [[p]]).
Proof.
  cbn [forward]. destruct (embed F w row) as [vs|e]; simpl; eauto.
Qed.

Lemma predict_sentiment_prints (F : framework) (raw : gmap string Z)
    (text : string) (nb : notebook F) (p : float) :
  forward F (model nb) (pad_sequences [sequence_of raw text] maxlen) = Returned [[p]] →
  (predict_sentiment F raw text nb).1 = Returned tt ∧
  stdout (predict_sentiment F raw text nb).2 =
    stdout nb ++
      [nl +:+ "Review: '" +:+ text +:+ "'";
       "Positive Sentiment Probability: " +:+ format4 p;
       if gt p (5 # 10)
       then "Result: Positive sentiment 😊"
       else "Result: Negative sentiment 😞"] ∧
  model (predict_sentiment F raw text nb).2 = model nb.
Proof.
  intros H. unfold predict_sentiment, bind, model_predict.
  fold (words_of text). fold (sequence_of raw text). rewrite H. simpl.
  destruct (gt p (5 # 10)); simpl; rewrite <- !app_assoc; done.
Qed.

(** C8: when [model.predict] returns the probability [p] for a text, the
    last line [predict_sentiment] prints is "Result: Positive sentiment"
    exactly when [p] is strictly greater than 0.5, and "Result: Negative
    sentiment" otherwise; a probability of exactly 0.5 is reported as
    negative. *)
Theorem C8_positive_iff_above_half (F : framework) (raw : gmap string Z)
    (text : string) (nb : notebook F) (p : float) :
  forward F (model nb) (pad_sequences [sequence_of raw text] maxlen) = Returned [[p]] →
  (predict_sentiment F raw text nb).1 = Returned tt ∧
  (last (stdout (predict_sentiment F raw text nb).2)
     = Some "Result: Positive sentiment 😊" ↔ above_half p) ∧
  (last (stdout (predict_sentiment F raw text nb).2)
     = Some "Result: Negative sentiment 😞" ↔ ¬ above_half p) ∧
  (∀ q, p = Finite q → (q == 1 # 2)%Q →
     last (stdout (predict_sentiment F raw text nb).2)
       = Some "Result: Negative sentiment 😞").
Proof.
  intros H.
  destruct (predict_sentiment_prints F raw text nb p H) as (Hret & Hout & _).
  rewrite Hout.
  replace (last _) with
    (Some (if gt p (5 # 10)
           then "Result: Positive sentiment 😊"
           else "Result: Negative sentiment 😞")).
  2:{ symmetry.
      change (stdout nb ++ [?a; ?b; ?c]) with (stdout nb ++ [a; b] ++ [c]).
      by rewrite !app_assoc, last_snoc. }
  pose proof (gt_above_half p) as Hgt.
  split; [done|].
  assert (Hiff : (Some (if gt p (5 # 10)
                        then "Result: Positive sentiment 😊"
                        else "Result: Negative sentiment 😞")
                  = Some "Result: Positive sentiment 😊") ↔ above_half p).
  { destruct (gt p (5 # 10)); split; intros H'.
    - by apply Hgt.
    - done.
    - discriminate H'.
    - apply Hgt in H'. discriminate H'. }
  split; [done|].
  split.
  - destruct (gt p (5 # 10)); split; intros H'.
    + discriminate H'.
    + exfalso. by apply H', Hgt.
    + intros Ha. apply Hgt in Ha. discriminate Ha.
    + done.
  - intros q -> Hq.
    destruct (gt (Finite q) (5 # 10)) eqn:E; [|done].
    apply gt_above_half in E. simpl in E. rewrite Hq in E.
    by apply Qlt_irrefl in E.
Qed.

Lemma C8_positive_iff_above_half_witness :
  forward toy (model built) (pad_sequences [sequence_of imdb_sample "the film"] maxlen)
    = Returned [[Finite (2 # 4)]] ∧
  (predict_sentiment toy imdb_sample "the film" built).1 = Returned tt ∧
  (last (stdout (predict_sentiment toy imdb_sample "the film" built).2)
     = Some "Result: Positive sentiment 😊" ↔ above_half (Finite (2 # 4))) ∧
  (last (stdout (predict_sentiment toy imdb_sample "the film" built).2)
     = Some "Result: Negative sentiment 😞" ↔ ¬ above_half (Finite (2 # 4))) ∧
  (∀ q, Finite (2 # 4) = Finite q → (q == 1 # 2)%Q →
     last (stdout (predict_sentiment toy imdb_sample "the film" built).2)
       = Some "Result: Negative sentiment 😞").
Proof.
  split; [reflexivity|].
  apply (C8_positive_iff_above_half toy imdb_sample "the film" built (Finite (2 # 4))).
  reflexivity.
Defined.

Example verdict_at_one_half :
  stdout (predict_sentiment toy imdb_sample "the film" built).2 =
    [nl +:+ "Review: 'the film'";
     "Positive Sentiment Probability: 0.5000";
     "Result: Negative sentiment 😞"].
Proof. reflexivity. Qed.

(** ** Totality *)

Lemma embed_valid (F : framework) (w : weights F) (row : list Z) :
  Forall valid_index row → ∃ vs, embed F w row = Returned vs.
Proof.
  induction 1 as [|i row Hi _ [vs IH]]; simpl; [by eexists|].
  unfold embedding_lookup. rewrite decide_True by exact Hi.
  simpl. rewrite IH. simpl. by eexists.
Qed.

Lemma pad_row_valid (s : list Z) (n : nat) :
  Forall valid_index s → Forall valid_index (pad_row Pre Pre 0 n s).
Proof.
  intros Hs. unfold pad_row. apply Forall_app. split.
  - apply Forall_replicate. unfold valid_index, max_features. lia.
  - by apply Forall_drop.
Qed.

(** On a text whose tokens all have a row in the table, [predict_sentiment]
    returns, having printed its three lines. *)
Lemma predict_sentiment_returns (F : framework) (raw : gmap string Z)
    (text : string) (nb : notebook F) :
  Forall valid_index (sequence_of raw text) →
  (predict_sentiment F raw text nb).1 = Returned tt ∧
  length (stdout (predict_sentiment F raw text nb).2) = (length (stdout nb) + 3)%nat.
Proof.
  intros Hvalid.
  destruct (embed_valid F (model nb) (pad_row Pre Pre 0 maxlen (sequence_of raw text)))
    as [vs Hvs]; [by apply pad_row_valid|].
  destruct (predict_sentiment_prints F raw text nb (recurrent_dense F (model nb) vs))
    as (Hret & Hout & _).
  { change (pad_sequences [sequence_of raw text] maxlen)
      with [pad_row Pre Pre 0 maxlen (sequence_of raw text)].
    cbn [forward]. by rewrite Hvs. }
  split; [done|]. rewrite Hout, length_app. reflexivity.
Qed.

(** The empty text and a text of separators only: no word, a single row of
    200 zeros, and a prediction that is computed and printed. *)
Lemma predict_sentiment_blank (F : framework) (raw : gmap string Z)
    (text : string) (nb : notebook F) :
  all_space text = true →
  sequence_of raw text = [] ∧
  pad_sequences [sequence_of raw text] maxlen = [replicate 200 0] ∧
  (predict_sentiment F raw text nb).1 = Returned tt.
Proof.
  intros H. assert (E : sequence_of raw text = []).
  { unfold sequence_of. by rewrite words_of_all_space. }
  split; [done|]. split; [by rewrite E|].
  apply predict_sentiment_returns. rewrite E. constructor.
Qed.

Example predict_sentiment_empty (F : framework) (raw : gmap string Z) (nb : notebook F) :
  (predict_sentiment F raw "" nb).1 = Returned tt ∧
  (predict_sentiment F raw "   " nb).1 = Returned tt.
Proof. split; by apply predict_sentiment_blank. Qed.

(** C10 at the text "fawn": the row that goes to [model.predict] holds the
    index 34704, the embedding lookup has no row for it, and
    [predict_sentiment] raises instead of computing and printing a
    prediction. *)
Theorem C10_rare_word_raises (F : framework) (nb : notebook F) :
  predict_sentiment F imdb_sample "fawn" nb
    = (Raised (InvalidArgumentError 34704), nb).
Proof.
  apply predict_sentiment_raises.
  change (pad_sequences [sequence_of imdb_sample "fawn"] maxlen)
    with [replicate 199 0 ++ [34704]].
  reflexivity.
Qed.

(** * Further properties of the cells *)

(** ** The re-indexed vocabulary *)

Lemma reserved_cases (k : string) :
  k ∉ reserved ↔ k ≠ "<PAD>" ∧ k ≠ "<START>" ∧ k ≠ "<UNK>" ∧ k ≠ "<UNUSED>".
Proof.
  unfold reserved. rewrite !not_elem_of_cons. split.
  - intros (?&?&?&?&_). done.
  - intros (?&?&?&?). split_and!; try done. apply not_elem_of_nil.
Qed.

(** X1: in the re-indexed vocabulary the four reserved keys have the indices
    0, 1, 2 and 3, also when the downloaded index has an entry of that name,
    and every other key has the index of the downloaded index plus 3, or none
    when the downloaded index has none. *)
Theorem X1_word_index_lookup (raw : gmap string Z) :
  word_index raw !! "<PAD>" = Some 0 ∧
  word_index raw !! "<START>" = Some 1 ∧
  word_index raw !! "<UNK>" = Some 2 ∧
  word_index raw !! "<UNUSED>" = Some 3 ∧
  (∀ k, k ∉ reserved → word_index raw !! k = (λ v, v + 3) <$> raw !! k).
Proof.
  unfold word_index. split_and!.
  - do 3 (rewrite lookup_insert_ne by done). by rewrite lookup_insert_eq.
  - do 2 (rewrite lookup_insert_ne by done). by rewrite lookup_insert_eq.
  - rewrite lookup_insert_ne by done. by rewrite lookup_insert_eq.
  - by rewrite lookup_insert_eq.
  - intros k (?&?&?&?)%reserved_cases.
    do 4 (rewrite lookup_insert_ne by done). by rewrite lookup_fmap.
Qed.

Lemma word_index_lookup_cases (raw : gmap string Z) (k : string) (v : Z) :
  word_index raw !! k = Some v →
  (k = "<PAD>" ∧ v = 0) ∨ (k = "<START>" ∧ v = 1) ∨ (k = "<UNK>" ∧ v = 2) ∨
  (k = "<UNUSED>" ∧ v = 3) ∨ ((k ∉ reserved) ∧ ∃ r, raw !! k = Some r ∧ v = r + 3).
Proof.
  unfold word_index. intros H.
  destruct (decide (k = "<UNUSED>")) as [->|N1].
  { rewrite lookup_insert_eq in H. naive_solver. }
  rewrite lookup_insert_ne in H by done.
  destruct (decide (k = "<UNK>")) as [->|N2].
  { rewrite lookup_insert_eq in H. naive_solver. }
  rewrite lookup_insert_ne in H by done.
  destruct (decide (k = "<START>")) as [->|N3].
  { rewrite lookup_insert_eq in H. naive_solver. }
  rewrite lookup_insert_ne in H by done.
  destruct (decide (k = "<PAD>")) as [->|N4].
  { rewrite lookup_insert_eq in H. naive_solver. }
  rewrite lookup_insert_ne in H by done.
  rewrite lookup_fmap in H.
  destruct (raw !! k) as [r|] eqn:E; [|discriminate H].
  injection H as <-. do 4 right. split; [by apply reserved_cases | eauto].
Qed.

Lemma pairs_injective (l : list (string * Z)) (a b : string) (r : Z) :
  NoDup l.*2 → (a, r) ∈ l → (b, r) ∈ l → a = b.
Proof.
  induction l as [|[x y] l IH]; simpl; intros Hnd Ha Hb.
  - by apply elem_of_nil in Ha.
  - apply NoDup_cons in Hnd as [Hy Hnd].
    apply elem_of_cons in Ha as [Ha|Ha]; apply elem_of_cons in Hb as [Hb|Hb].
    + congruence.
    + injection Ha as -> ->. exfalso. apply Hy.
      apply list_elem_of_fmap. by exists (b, y).
    + injection Hb as -> ->. exfalso. apply Hy.
      apply list_elem_of_fmap. by exists (a, y).
    + by apply IH.
Qed.

(** X2: when the ranks of the downloaded index start at 1 and no two words
    share a rank, no two keys of the re-indexed vocabulary share an index:
    the reserved indices 0 to 3 belong to the reserved keys alone. *)
Theorem X2_word_index_injective (raw : gmap string Z) (k1 k2 : string) (v : Z) :
  map_Forall (λ _ r, 1 ≤ r) raw →
  NoDup (map_to_list raw).*2 →
  word_index raw !! k1 = Some v → word_index raw !! k2 = Some v →
  k1 = k2.
Proof.
  intros Hrank Hnd H1 H2.
  apply word_index_lookup_cases in H1, H2.
  destruct H1 as [[-> ->]|[[-> ->]|[[-> ->]|[[-> ->]|(_ & r1 & E1 & ->)]]]];
  destruct H2 as [[-> H]|[[-> H]|[[-> H]|[[-> H]|(_ & r2 & E2 & H)]]]];
    try done;
    try (pose proof (Hrank _ _ E1) as L1; simpl in L1);
    try (pose proof (Hrank _ _ E2) as L2; simpl in L2);
    try lia.
  assert (r1 = r2) as -> by lia.
  apply (pairs_injective (map_to_list raw) k1 k2 r2 Hnd);
    by apply elem_of_map_to_list.
Qed.

Lemma X2_word_index_injective_witness : "film" = "film".
Proof.
  apply (X2_word_index_injective imdb_sample "film" "film" 22).
  - apply imdb_sample_ranks.
  - apply (bool_decide_unpack _). by vm_compute.
  - reflexivity.
  - reflexivity.
Defined.

(** ** Tokenization *)

Lemma app_cons (c : ascii) (s1 s2 : string) :
  String c s1 +:+ s2 = String c (s1 +:+ s2).
Proof. reflexivity. Qed.

Lemma app_empty_r (s : string) : s +:+ EmptyString = s.
Proof. induction s as [|c s IH]; [done|]. by rewrite app_cons, IH. Qed.

Lemma app_assoc_string (s1 s2 s3 : string) :
  (s1 +:+ s2) +:+ s3 = s1 +:+ (s2 +:+ s3).
Proof. induction s1 as [|c s1 IH]; [done|]. by rewrite !app_cons, IH. Qed.

Lemma app_not_empty (s : string) (c : ascii) : s +:+ String c EmptyString ≠ EmptyString.
Proof. by destruct s. Qed.

Lemma no_space_app (s1 s2 : string) :
  no_space (s1 +:+ s2) = no_space s1 && no_space s2.
Proof.
  induction s1 as [|c s1 IH]; [done|].
  rewrite app_cons. cbn [no_space]. by rewrite IH, andb_assoc.
Qed.

Lemma split_from_words (s cur : string) :
  no_space cur = true →
  Forall (λ w, w ≠ EmptyString ∧ no_space w = true) (split_from cur s).
Proof.
  revert cur. induction s as [|c s IH]; intros cur Hcur; cbn [split_from].
  - destruct cur; [constructor|]. by repeat constructor.
  - destruct (isspace c) eqn:Ec.
    + destruct cur as [|d cur].
      * by apply IH.
      * constructor; [done | by apply IH].
    + apply IH. rewrite no_space_app, Hcur. cbn [no_space]. by rewrite Ec.
Qed.

Lemma no_upper_no_capital (w : string) :
  no_upper w = true → every (λ c, negb (ascii_capital c)) w = true.
Proof.
  induction w as [|c w IH]; cbn [no_upper every]; [done|].
  intros [Hc Hw]%andb_prop. rewrite (IH Hw), andb_true_r.
  revert Hc. destruct c as [[] [] [] [] [] [] [] []]; by vm_compute.
Qed.

Lemma no_upper_not_reserved (w : string) : no_upper w = true → w ∉ reserved.
Proof.
  intros Hw. apply reserved_cases. split_and!; intros ->; discriminate Hw.
Qed.

(** X3: every word of [text.lower().split()] is non-empty, holds no
    separator and holds none of the capital letters A to Z; so it is none of
    the four reserved keys, and neither the empty key nor a key with a blank
    is ever looked up. *)
Theorem X3_words_are_clean (text : string) :
  Forall (λ w, w ≠ EmptyString ∧ no_space w = true ∧
               every (λ c, negb (ascii_capital c)) w = true ∧ w ∉ reserved)
         (words_of text).
Proof.
  pose proof (split_from_words (lower text) EmptyString eq_refl) as H1.
  pose proof (words_of_no_upper text) as H2.
  unfold words_of, split in *.
  rewrite Forall_forall in H1, H2. apply Forall_forall. intros w Hw.
  destruct (H1 w Hw). split_and!; [done..| |].
  - by apply no_upper_no_capital, H2.
  - by apply no_upper_not_reserved, H2.
Qed.

Lemma join_split_from (s cur : string) :
  join (split_from cur s) = cur +:+ remove_spaces s.
Proof.
  revert cur. induction s as [|c s IH]; intros cur; cbn [split_from remove_spaces].
  - destruct cur; [done|]. unfold join. cbn [foldr]. reflexivity.
  - destruct (isspace c).
    + destruct cur as [|d cur]; [apply IH|].
      unfold join. cbn [foldr]. fold (join (split_from EmptyString s)).
      by rewrite IH.
    + rewrite IH. apply app_assoc_string.
Qed.

(** X4: tokenization loses separators and nothing else: the words of
    [text.lower().split()], written one after the other, are the lower-cased
    text without its separators.  Punctuation stays part of its word. *)
Theorem X4_words_keep_every_character (text : string) :
  join (words_of text) = remove_spaces (lower text).
Proof. apply join_split_from. Qed.

Example words_keep_punctuation :
  words_of "Great film, great plot!" = ["great"; "film,"; "great"; "plot!"].
Proof. reflexivity. Qed.

Lemma isspace_lower_char (c : ascii) : isspace c = true → lower_char c = c.
Proof. destruct c as [[] [] [] [] [] [] [] []]; by vm_compute. Qed.

Lemma lower_app (s1 s2 : string) : lower (s1 +:+ s2) = lower s1 +:+ lower s2.
Proof.
  induction s1 as [|c s1 IH]; [done|].
  rewrite app_cons. cbn [lower]. by rewrite IH.
Qed.

Lemma split_from_separator (s1 s2 cur : string) (c : ascii) :
  isspace c = true →
  split_from cur (s1 +:+ String c s2) = split_from cur s1 ++ split s2.
Proof.
  intros Hc. revert cur. induction s1 as [|d s1 IH]; intros cur.
  - change (EmptyString +:+ String c s2) with (String c s2).
    cbn [split_from]. rewrite Hc. by destruct cur.
  - rewrite app_cons. cbn [split_from].
    destruct (isspace d); [|apply IH].
    destruct cur; rewrite IH; done.
Qed.

Lemma words_of_separator (t1 t2 : string) (c : ascii) :
  isspace c = true → words_of (t1 +:+ String c t2) = words_of t1 ++ words_of t2.
Proof.
  intros Hc. unfold words_of, split.
  rewrite lower_app. cbn [lower]. rewrite (isspace_lower_char c Hc).
  by apply split_from_separator.
Qed.

(** X5: a separator between two texts (a blank, a tab, a line break, ...)
    splits the token sequence: the sequence of the whole is the sequence of
    the first text followed by that of the second.  So a separator in front
    of or behind a text changes nothing, and neither does a run of separators
    in place of one. *)
Theorem X5_sequence_splits_at_separator (raw : gmap string Z) (t1 t2 : string)
    (c : ascii) :
  isspace c = true →
  sequence_of raw (t1 +:+ String c t2) = sequence_of raw t1 ++ sequence_of raw t2 ∧
  sequence_of raw (String c t2) = sequence_of raw t2 ∧
  sequence_of raw (t1 +:+ String c EmptyString) = sequence_of raw t1 ∧
  sequence_of raw (t1 +:+ String c (String c t2)) = sequence_of raw (t1 +:+ String c t2).
Proof.
  intros Hc. unfold sequence_of.
  assert (H0 : ∀ t, words_of (String c t) = words_of t).
  { intros t. by apply (words_of_separator EmptyString t c). }
  split_and!.
  - by rewrite words_of_separator, fmap_app.
  - by rewrite H0.
  - rewrite words_of_separator by done.
    change (words_of EmptyString) with (@nil string). by rewrite app_nil_r.
  - by rewrite !words_of_separator, H0.
Qed.

Lemma X5_sequence_splits_at_separator_witness :
  sequence_of imdb_sample ("the film" +:+ String " " "was fawn")
    = sequence_of imdb_sample "the film" ++ sequence_of imdb_sample "was fawn" ∧
  sequence_of imdb_sample (String " " "was fawn") = sequence_of imdb_sample "was fawn" ∧
  sequence_of imdb_sample ("the film" +:+ String " " EmptyString)
    = sequence_of imdb_sample "the film" ∧
  sequence_of imdb_sample ("the film" +:+ String " " (String " " "was fawn"))
    = sequence_of imdb_sample ("the film" +:+ String " " "was fawn").
Proof.
  apply (X5_sequence_splits_at_separator imdb_sample "the film" "was fawn" " ").
  reflexivity.
Defined.

Lemma lower_char_idempotent (c : ascii) : lower_char (lower_char c) = lower_char c.
Proof. destruct c as [[] [] [] [] [] [] [] []]; reflexivity. Qed.

Lemma lower_idempotent (s : string) : lower (lower s) = lower s.
Proof.
  induction s as [|c s IH]; [done|].
  cbn [lower]. by rewrite lower_char_idempotent, IH.
Qed.

(** ** The model input of [predict_sentiment] *)

Lemma lower_char_lowercase (c : ascii) : lower_char c = lowercase_char c.
Proof. destruct c as [[] [] [] [] [] [] [] []]; reflexivity. Qed.

Lemma lower_lowercase (s : string) : lower s = lowercase s.
Proof.
  induction s as [|c s IH]; [done|].
  cbn [lower lowercase]. by rewrite lower_char_lowercase, IH.
Qed.

Lemma isspace_whitespace (c : ascii) : isspace c = whitespace c.
Proof. destruct c as [[] [] [] [] [] [] [] []]; reflexivity. Qed.

Lemma every_app (P : ascii → bool) (s1 s2 : string) :
  every P (s1 +:+ s2) = every P s1 && every P s2.
Proof.
  induction s1 as [|c s1 IH]; [done|].
  rewrite app_cons. cbn [every]. by rewrite IH, andb_assoc.
Qed.

Lemma words_after_whitespace (c : ascii) (s : string) (ws : list string) :
  whitespace c = true →
  words_between_whitespace s ws → words_between_whitespace (String c s) ws.
Proof.
  intros Hc H. destruct H as [gap Hgap|gap w rest ws Hgap Hw1 Hw2 Hend Hrest].
  - apply no_more_words. cbn [every]. by rewrite Hc.
  - rewrite <- app_cons. apply next_word; try done. cbn [every]. by rewrite Hc.
Qed.

(** The words the code computes are words between whitespace. *)
Lemma split_from_between (s cur : string) :
  every (λ c, negb (whitespace c)) cur = true →
  words_between_whitespace (cur +:+ s) (split_from cur s).
Proof.
  revert cur. induction s as [|c s IH]; intros cur Hcur; cbn [split_from].
  - destruct cur as [|d cur]; [by apply no_more_words|].
    apply (next_word EmptyString (String d cur) EmptyString []);
      [done | done | done | done | by apply no_more_words].
  - rewrite isspace_whitespace. destruct (whitespace c) eqn:Ec.
    + destruct cur as [|d cur].
      * apply words_after_whitespace; [done|]. by apply (IH EmptyString).
      * apply (next_word EmptyString (String d cur) (String c s));
          [done | done | done | exact Ec |].
        apply words_after_whitespace; [done|]. by apply (IH EmptyString).
    + replace (cur +:+ String c s) with ((cur +:+ String c EmptyString) +:+ s)
        by apply app_assoc_string.
      apply IH. rewrite every_app, Hcur. cbn [every]. by rewrite Ec.
Qed.

Lemma split_from_gap (gap s : string) :
  every whitespace gap = true →
  split_from EmptyString (gap +:+ s) = split_from EmptyString s.
Proof.
  induction gap as [|c gap IH]; [done|].
  cbn [every]. intros [Hc Hgap]%andb_prop.
  rewrite app_cons. cbn [split_from]. rewrite isspace_whitespace, Hc. by apply IH.
Qed.

Lemma split_from_word (w s cur : string) :
  every (λ c, negb (whitespace c)) w = true →
  split_from cur (w +:+ s) = split_from (cur +:+ w) s.
Proof.
  revert cur. induction w as [|c w IH]; intros cur.
  - intros _. by rewrite app_empty_r.
  - cbn [every]. intros [Hc Hw]%andb_prop.
    rewrite app_cons. cbn [split_from]. rewrite isspace_whitespace.
    apply negb_true_iff in Hc. rewrite Hc, (IH _ Hw).
    by rewrite app_assoc_string.
Qed.

Lemma split_from_end (w rest : string) :
  w ≠ EmptyString → ends_word rest → split_from w rest = w :: split rest.
Proof.
  intros Hw Hend. destruct rest as [|c rest]; cbn [split_from].
  - by destruct w.
  - cbn [ends_word] in Hend. unfold split. cbn [split_from].
    rewrite isspace_whitespace, Hend. by destruct w.
Qed.

(** Words between whitespace are the words the code computes: the text has
    one list of words. *)
Lemma between_is_split (s : string) (ws : list string) :
  words_between_whitespace s ws → ws = split s.
Proof.
  induction 1 as [gap Hgap|gap w rest ws Hgap Hw1 Hw2 Hend _ IH].
  - symmetry. apply split_all_space.
    clear -Hgap. induction gap as [|c gap IH]; [done|].
    cbn [every all_space] in *. apply andb_prop in Hgap as [Hc Hgap].
    by rewrite isspace_whitespace, Hc, IH.
  - unfold split. rewrite split_from_gap by done.
    rewrite split_from_word by done.
    change (EmptyString +:+ w) with w.
    rewrite split_from_end by done. by rewrite IH.
Qed.

(** C3: for every text, the batch [predict_sentiment] builds from
    [text.lower().split()], the lookup with default 2 and the padding step is
    the described input: the words between whitespace of the lower-cased
    text, each mapped to its rank plus 3 or to 2 when the index has no such
    word, behind zeros on the left up to 200 tokens.  The described input is
    unique, it is one row of 200 tokens, and [predict_sentiment] is the call
    of [model.predict] on exactly that batch followed by the report of its
    result. *)
Theorem C3_model_input (F : framework) (raw : gmap string Z) (text : string) :
  described raw text (pad_sequences [get_index raw <$> split (lower text)] maxlen) ∧
  (∀ batch, described raw text batch →
     batch = pad_sequences [get_index raw <$> split (lower text)] maxlen ∧
     predict_sentiment F raw text = bind F (model_predict F batch) (report F text) ∧
     ∃ row, batch = [row] ∧ length row = 200%nat) ∧
  (∀ words, words_between_whitespace (lowercase text) words →
     (length words ≤ 200)%nat →
     pad_sequences [get_index raw <$> split (lower text)] maxlen
       = [replicate (200 - length words) 0 ++ (shifted_lookup raw <$> words)]).
Proof.
  assert (Hcode : pad_sequences [get_index raw <$> split (lower text)] maxlen
                  = [left_pad 200 (shifted_lookup raw <$> split (lower text))]).
  { change (pad_sequences [get_index raw <$> split (lower text)] maxlen)
      with [pad_row Pre Pre 0 200 (sequence_of raw text)].
    by rewrite pad_row_left_pad, sequence_of_shifted. }
  assert (Hwords : ∀ words, words_between_whitespace (lowercase text) words →
                            words = split (lower text)).
  { intros words H. rewrite lower_lowercase. by apply between_is_split. }
  split_and!.
  - exists (split (lower text)). split; [|exact Hcode].
    rewrite <- lower_lowercase. by apply (split_from_between (lower text) EmptyString).
  - intros batch (words & Hw & ->). rewrite (Hwords _ Hw), <- Hcode.
    split_and!; [done | done |].
    eexists. split; [reflexivity|]. apply pad_row_length.
  - intros words Hw Hlen. rewrite Hcode, <- (Hwords _ Hw).
    unfold left_pad. rewrite length_fmap.
    replace (length words - 200)%nat with 0%nat by lia. by rewrite drop_0.
Qed.

(** ** [predict_sentiment] as a whole *)

(** The two ways a call ends: the embedding of the padded row raises and
    nothing is printed, or the three lines of the report are printed. *)
Lemma predict_sentiment_cases (F : framework) (raw : gmap string Z)
    (text : string) (nb : notebook F) :
  predict_sentiment F raw text nb =
    match embed F (model nb) (pad_row Pre Pre 0 200 (sequence_of raw text)) with
    | Returned vs =>
        (Returned tt, printed nb (report_lines text (recurrent_dense F (model nb) vs)))
    | Raised e => (Raised e, nb)
    end.
Proof.
  unfold predict_sentiment, bind, model_predict.
  change (pad_sequences [get_index raw <$> split (lower text)] maxlen)
    with [pad_row Pre Pre 0 200 (sequence_of raw text)].
  cbn [forward].
  destruct (embed F (model nb) (pad_row Pre Pre 0 200 (sequence_of raw text)))
    as [vs|e]; [|done].
  cbn [and_then item00 lift].
  unfold printed, report_lines, print.
  destruct (gt (recurrent_dense F (model nb) vs) (5 # 10));
    cbn [stdout x_train y_train x_test y_test model]; by rewrite <- !app_assoc.
Qed.

Lemma report_after_echo (F : framework) (nb : notebook F) (text : string) (p : float) :
  drop (S (length (stdout nb))) (stdout (printed nb (report_lines text p)))
    = drop 1 (report_lines text p).
Proof.
  unfold printed. cbn [stdout].
  rewrite drop_app_ge by lia.
  by replace (S (length (stdout nb)) - length (stdout nb))%nat with 1%nat by lia.
Qed.

(** X6: [predict_sentiment] does not tell capitals from small letters: the
    lower-cased text has the same token sequence as the text, the call ends
    the same way (returns, or raises the same exception), and the
    probability line and the verdict line printed after the echo of the
    review are the same. *)
Theorem X6_case_insensitive (F : framework) (raw : gmap string Z)
    (text : string) (nb : notebook F) :
  sequence_of raw (lower text) = sequence_of raw text ∧
  (predict_sentiment F raw (lower text) nb).1 = (predict_sentiment F raw text nb).1 ∧
  drop (S (length (stdout nb))) (stdout (predict_sentiment F raw (lower text) nb).2)
    = drop (S (length (stdout nb))) (stdout (predict_sentiment F raw text nb).2).
Proof.
  assert (E : sequence_of raw (lower text) = sequence_of raw text).
  { unfold sequence_of, words_of. by rewrite lower_idempotent. }
  split; [done|].
  rewrite !predict_sentiment_cases, E.
  destruct (embed F (model nb) (pad_row Pre Pre 0 200 (sequence_of raw text)));
    [|done].
  cbn [fst snd]. split; [done|]. by rewrite !report_after_echo.
Qed.

(** X7: the text reaches the model through its token sequence alone: two
    texts with the same sequence, under the same or under different
    dictionaries, end the same way and get the same probability line and the
    same verdict line; only the echo of the review differs. *)
Theorem X7_same_tokens_same_verdict (F : framework) (raw1 raw2 : gmap string Z)
    (t1 t2 : string) (nb : notebook F) :
  sequence_of raw1 t1 = sequence_of raw2 t2 →
  (predict_sentiment F raw1 t1 nb).1 = (predict_sentiment F raw2 t2 nb).1 ∧
  drop (S (length (stdout nb))) (stdout (predict_sentiment F raw1 t1 nb).2)
    = drop (S (length (stdout nb))) (stdout (predict_sentiment F raw2 t2 nb).2) ∧
  model (predict_sentiment F raw1 t1 nb).2 = model (predict_sentiment F raw2 t2 nb).2.
Proof.
  intros E. rewrite !predict_sentiment_cases, E.
  destruct (embed F (model nb) (pad_row Pre Pre 0 200 (sequence_of raw2 t2)));
    [|done].
  cbn [fst snd]. split; [done|]. split; [|done]. by rewrite !report_after_echo.
Qed.

Lemma X7_same_tokens_same_verdict_witness :
  (predict_sentiment toy imdb_sample "a film zzz" built).1
    = (predict_sentiment toy top_sample "A  FILM   qqq" built).1 ∧
  drop (S (length (stdout built)))
       (stdout (predict_sentiment toy imdb_sample "a film zzz" built).2)
    = drop (S (length (stdout built)))
           (stdout (predict_sentiment toy top_sample "A  FILM   qqq" built).2) ∧
  model (predict_sentiment toy imdb_sample "a film zzz" built).2
    = model (predict_sentiment toy top_sample "A  FILM   qqq" built).2.
Proof.
  apply (X7_same_tokens_same_verdict toy imdb_sample top_sample
           "a film zzz" "A  FILM   qqq" built).
  reflexivity.
Defined.

(** ** How [predict_sentiment] ends *)

Lemma embed_raises (F : framework) (w : weights F) (row : list Z) (e : exn) :
  embed F w row = Raised e →
  ∃ i, e = InvalidArgumentError i ∧ i ∈ row ∧ ¬ valid_index i.
Proof.
  induction row as [|i row IH]; cbn [embed]; [discriminate|].
  unfold embedding_lookup at 1.
  destruct (decide (0 ≤ i < embedding_rows model_layers)) as [Hi|Hi]; cbn [and_then].
  - destruct (embed F w row) as [vs|e']; cbn [and_then]; [discriminate|].
    intros [= <-]. destruct (IH eq_refl) as (j & -> & Hj & Hbad).
    exists j. split_and!; [done | by apply elem_of_cons; right | done].
  - intros [= <-]. exists i. split_and!; [done | by apply elem_of_cons; left | done].
Qed.

(** X8: a call of [predict_sentiment] prints all of its report or nothing.
    Either it raises and leaves the notebook exactly as it found it, or it
    returns after printing three lines (the echo of the review, the
    probability and the verdict for that same probability) and changing
    nothing else.  It never raises a [KeyError]: no word reaches the
    dictionary without a default. *)
Theorem X8_all_or_nothing (F : framework) (raw : gmap string Z)
    (text : string) (nb : notebook F) :
  ((∃ e, predict_sentiment F raw text nb = (Raised e, nb)) ∨
   (∃ p, predict_sentiment F raw text nb
         = (Returned tt, printed nb (report_lines text p)))) ∧
  (∀ k, (predict_sentiment F raw text nb).1 ≠ Raised (KeyError k)).
Proof.
  rewrite predict_sentiment_cases.
  destruct (embed F (model nb) (pad_row Pre Pre 0 200 (sequence_of raw text)))
    as [vs|e] eqn:E.
  - split; [right; eauto | discriminate].
  - split; [left; eauto|].
    intros k [= ->]. by destruct (embed_raises F _ _ _ E) as (i & ? & _).
Qed.

(** X9: with a word index whose ranks lie between 1 and [max_features - 4],
    every token of every text is a row of the embedding table and
    [predict_sentiment] returns on every text. *)
Theorem X9_bounded_index_total (F : framework) (raw : gmap string Z)
    (text : string) (nb : notebook F) :
  map_Forall (λ _ r, 1 ≤ r ≤ max_features - 4) raw →
  Forall valid_index (sequence_of raw text) ∧
  (predict_sentiment F raw text nb).1 = Returned tt.
Proof.
  intros Hraw.
  assert (Hvalid : Forall valid_index (sequence_of raw text)).
  { rewrite sequence_of_shifted. apply Forall_fmap, Forall_true. intros w.
    unfold compose, shifted_lookup, valid_index.
    destruct (raw !! w) as [r|] eqn:E; [|unfold max_features; lia].
    specialize (Hraw _ _ E). cbv beta in Hraw. unfold max_features in *. lia. }
  split; [done|]. by apply predict_sentiment_returns.
Qed.

Lemma top_sample_ranks : map_Forall (λ _ r, 1 ≤ r ≤ max_features - 4) top_sample.
Proof.
  apply map_Forall_to_list. vm_compute.
  repeat (constructor; [split; discriminate|]). constructor.
Defined.

Lemma X9_bounded_index_total_witness :
  Forall valid_index (sequence_of top_sample "The film in the WOODS zzz") ∧
  (predict_sentiment toy top_sample "The film in the WOODS zzz" built).1 = Returned tt.
Proof.
  apply (X9_bounded_index_total toy top_sample "The film in the WOODS zzz" built).
  apply top_sample_ranks.
Defined.

(** ** The cells, one after the other *)

Lemma cell_data_trace (F : framework) (nb : notebook F) (d : dataset) :
  load_data F max_features = Returned d →
  cell_data F nb =
    (Returned tt,
     Build_notebook F (pad_sequences d.1.1 maxlen) d.1.2
       (pad_sequences d.2.1 maxlen) d.2.2 (model nb)
       (stdout nb ++ data_lines (length d.1.1) (length d.2.1))).
Proof.
  intros H.
  assert (E200 : pretty maxlen = "200") by (by vm_compute).
  assert (E1 : length (pad_sequences d.1.1 maxlen) = length d.1.1)
    by apply pad_sequences_length.
  assert (E2 : length (pad_sequences d.2.1 maxlen) = length d.2.1)
    by apply pad_sequences_length.
  unfold cell_data. rewrite H. unfold shape, data_lines.
  rewrite E200.
  cbv [bind lift print read assign_data assign_x_train assign_x_test
       x_train y_train x_test y_test model stdout].
  rewrite E1, E2.
  generalize (pretty (length d.1.1)) (pretty (length d.2.1)). intros p1 p2.
  rewrite <- !app_assoc. reflexivity.
Qed.

Lemma cell_train_trace (F : framework) (nb : notebook F) :
  cell_train F nb =
    ((optimizer F (model nb) (x_train nb) (y_train nb) 32 5 (2 # 10)).1,
     Build_notebook F (x_train nb) (y_train nb) (x_test nb) (y_test nb)
       (optimizer F (model nb) (x_train nb) (y_train nb) 32 5 (2 # 10)).2
       (stdout nb ++ ["Training model..."])).
Proof.
  unfold cell_train, bind, model_fit, print, read, assign_model, lift.
  cbn [x_train y_train x_test y_test model stdout].
  by destruct (optimizer F (model nb) (x_train nb) (y_train nb) 32 5 (2 # 10))
    as [[[]|e] w].
Qed.

Lemma cell_evaluate_trace (F : framework) (nb : notebook F) :
  cell_evaluate F nb =
    match metrics F (model nb) (x_test nb) (y_test nb) 32 with
    | Returned r =>
        (Returned tt,
         printed nb ["Test score: " +:+ format4 r.1; "Test accuracy: " +:+ format4 r.2])
    | Raised e => (Raised e, nb)
    end.
Proof.
  unfold cell_evaluate, bind, model_evaluate, print, read, printed.
  destruct (metrics F (model nb) (x_test nb) (y_test nb) 32) as [r|e]; [|done].
  cbn [x_train y_train x_test y_test model stdout].
  by rewrite <- !app_assoc.
Qed.

Lemma bind_frame_after {F : framework} {A B C : Type} (f : notebook F → C)
    (m : M F A) (k : A → M F B) (nb : notebook F) :
  (∀ a, preserves f (k a)) → f (bind F m k nb).2 = f (m nb).2.
Proof.
  intros Hk. unfold bind. destruct (m nb) as [[a|e] nb']; [apply Hk | done].
Qed.

(** X10: when the loader returns, the parameters the notebook ends with are
    the ones a single [fit] call leaves behind: the call on the freshly built
    stack, with the padded training reviews, the training labels, batches of
    32, 5 epochs and a validation split of 0.2.  No later cell changes them,
    whether it returns or raises. *)
Theorem X10_final_parameters (F : framework) (nb : notebook F) (d : dataset) :
  load_data F max_features = Returned d →
  model (run_all F nb).2 =
    (optimizer F (initial F model_layers) (pad_sequences d.1.1 maxlen) d.1.2
       32 5 (2 # 10)).2.
Proof.
  intros Hload. rewrite (run_all_after_data F nb d Hload).
  rewrite (cell_data_trace F nb d Hload). cbn [snd].
  unfold bind at 1. unfold cell_model at 1, assign_model at 1.
  cbn [x_train y_train x_test y_test model stdout].
  rewrite (bind_frame_after model).
  - by rewrite cell_train_trace.
  - intros _. apply preserves_bind.
    + apply cell_evaluate_frame. by intros ? ?.
    + intros _. apply cell_predict_frame. by intros ? ?.
Qed.

Lemma X10_final_parameters_witness :
  model (run_all toy blank).2 =
    (optimizer toy (initial toy model_layers)
       (pad_sequences [[1; 14; 22]; [1; 5]] maxlen) [1; 0] 32 5 (2 # 10)).2.
Proof.
  apply (X10_final_parameters toy blank
           (([[1; 14; 22]; [1; 5]], [1; 0]), ([[1; 7]], [0]))).
  reflexivity.
Defined.

(** X11: when the loader returns and training returns the parameters [w],
    the evaluation cell measures [w] on the padded test reviews with the test
    labels in batches of 32.  If that returns a score and an accuracy, cells
    2 to 5 have printed the six lines of the data cell, "Training model..."
    and the two measures with four decimals; if it raises, the exception ends
    the run after "Training model...".  If training itself raises, the run
    ends there, with the parameters training left behind and no evaluation. *)
Theorem X11_evaluation_of_trained_model (F : framework) (nb : notebook F)
    (d : dataset) :
  load_data F max_features = Returned d →
  (∀ w score acc,
     optimizer F (initial F model_layers) (pad_sequences d.1.1 maxlen) d.1.2
       32 5 (2 # 10) = (Returned tt, w) →
     metrics F w (pad_sequences d.2.1 maxlen) d.2.2 32 = Returned (score, acc) →
     cells_2_to_5 F nb =
       (Returned tt,
        Build_notebook F (pad_sequences d.1.1 maxlen) d.1.2
          (pad_sequences d.2.1 maxlen) d.2.2 w
          (stdout nb ++ data_lines (length d.1.1) (length d.2.1)
             ++ ["Training model...";
                 "Test score: " +:+ format4 score;
                 "Test accuracy: " +:+ format4 acc]))) ∧
  (∀ w e,
     optimizer F (initial F model_layers) (pad_sequences d.1.1 maxlen) d.1.2
       32 5 (2 # 10) = (Returned tt, w) →
     metrics F w (pad_sequences d.2.1 maxlen) d.2.2 32 = Raised e →
     cells_2_to_5 F nb =
       (Raised e,
        Build_notebook F (pad_sequences d.1.1 maxlen) d.1.2
          (pad_sequences d.2.1 maxlen) d.2.2 w
          (stdout nb ++ data_lines (length d.1.1) (length d.2.1)
             ++ ["Training model..."]))) ∧
  (∀ w e,
     optimizer F (initial F model_layers) (pad_sequences d.1.1 maxlen) d.1.2
       32 5 (2 # 10) = (Raised e, w) →
     cells_2_to_5 F nb =
       (Raised e,
        Build_notebook F (pad_sequences d.1.1 maxlen) d.1.2
          (pad_sequences d.2.1 maxlen) d.2.2 w
          (stdout nb ++ data_lines (length d.1.1) (length d.2.1)
             ++ ["Training model..."]))).
Proof.
  intros Hload.
  assert (Hstart : ∀ k : unit → M F unit,
    bind F (cell_data F) (λ _, bind F (cell_model F) (λ _, bind F (cell_train F) k)) nb
    = bind F (cell_train F) k
        (Build_notebook F (pad_sequences d.1.1 maxlen) d.1.2
           (pad_sequences d.2.1 maxlen) d.2.2 (initial F model_layers)
           (stdout nb ++ data_lines (length d.1.1) (length d.2.1)))).
  { intros k. unfold bind at 1. by rewrite (cell_data_trace F nb d Hload). }
  unfold cells_2_to_5. rewrite Hstart. unfold bind. rewrite cell_train_trace.
  cbn [x_train y_train x_test y_test model stdout].
  split_and!.
  - intros w score acc Hfit Hmet. rewrite Hfit. cbn [fst snd].
    rewrite cell_evaluate_trace.
    cbn [x_train y_train x_test y_test model stdout]. rewrite Hmet.
    unfold printed. cbn [x_train y_train x_test y_test model stdout fst snd].
    by rewrite <- !app_assoc.
  - intros w e Hfit Hmet. rewrite Hfit. cbn [fst snd].
    rewrite cell_evaluate_trace.
    cbn [x_train y_train x_test y_test model stdout]. rewrite Hmet.
    by rewrite <- !app_assoc.
  - intros w e Hfit. rewrite Hfit. cbn [fst snd]. by rewrite <- !app_assoc.
Qed.

Lemma X11_evaluation_of_trained_model_witness :
  cells_2_to_5 toy blank =
    (Returned tt,
     Build_notebook toy (pad_sequences [[1; 14; 22]; [1; 5]] maxlen) [1; 0]
       (pad_sequences [[1; 7]] maxlen) [0] 3
       ([] ++ data_lines 2 1
           ++ ["Training model...";
               "Test score: " +:+ format4 (Finite (575 # 1000));
               "Test accuracy: " +:+ format4 (Finite (8465 # 10000))])).
Proof.
  destruct (X11_evaluation_of_trained_model toy blank
              (([[1; 14; 22]; [1; 5]], [1; 0]), ([[1; 7]], [0])) eq_refl)
    as (H & _ & _).
  apply (H 3 (Finite (575 # 1000)) (Finite (8465 # 10000))); reflexivity.
Defined.

(** X12: when the download of the data set raises, the whole run ends with
    that exception: "Loading data..." is the only line printed, the four data
    arrays and the model are left as they were (the two parameters of lines
    103-104 are set before the download), and no model is built or trained. *)
Theorem X12_load_failure_stops_the_run (F : framework) (nb : notebook F) (e : exn) :
  load_data F max_features = Raised e →
  run_all F nb = (Raised e, printed nb ["Loading data..."]).
Proof.
  intros H.
  assert (E : cell_data F nb = (Raised e, printed nb ["Loading data..."])).
  { unfold cell_data. rewrite H. reflexivity. }
  unfold run_all. unfold bind at 1. by rewrite E.
Qed.

Lemma X12_load_failure_stops_the_run_witness :
  run_all offline unplugged
    = (Raised (FrameworkError "no network"), printed unplugged ["Loading data..."]).
Proof.
  apply (X12_load_failure_stops_the_run offline unplugged (FrameworkError "no network")).
  reflexivity.
Defined.

(** X13: when the loader returns, the data cell prints six lines: the
    number of training and of test reviews, and after padding the shapes of
    the two arrays, with the same numbers of rows and 200 columns.  For
    25,000 reviews each these are the lines recorded in the notebook. *)
Theorem X13_data_cell_output (F : framework) (nb : notebook F) (d : dataset) :
  load_data F max_features = Returned d →
  (cell_data F nb).1 = Returned tt ∧
  stdout (cell_data F nb).2
    = stdout nb ++ data_lines (length d.1.1) (length d.2.1) ∧
  (length d.1.1 = N.to_nat 25000 → length d.2.1 = N.to_nat 25000 →
   stdout (cell_data F nb).2 =
     stdout nb ++
       ["Loading data...";
        "25000 train sequences";
        "25000 test sequences";
        nl +:+ "Pad sequences (samples x time)";
        "x_train shape: (25000, 200)";
        "x_test shape: (25000, 200)"]).
Proof.
  intros Hload. rewrite (cell_data_trace F nb d Hload). cbn [fst snd stdout].
  split; [done|]. split; [done|].
  intros -> ->. f_equal; by vm_compute.
Qed.

Lemma X13_data_cell_output_witness :
  (cell_data toy blank).1 = Returned tt ∧
  stdout (cell_data toy blank).2 = stdout blank ++ data_lines 2 1 ∧
  (2%nat = N.to_nat 25000 → 1%nat = N.to_nat 25000 →
   stdout (cell_data toy blank).2 =
     stdout blank ++
       ["Loading data...";
        "25000 train sequences";
        "25000 test sequences";
        nl +:+ "Pad sequences (samples x time)";
        "x_train shape: (25000, 200)";
        "x_test shape: (25000, 200)"]).
Proof.
  apply (X13_data_cell_output toy blank
           (([[1; 14; 22]; [1; 5]], [1; 0]), ([[1; 7]], [0]))).
  reflexivity.
Defined.

Lemma printed_printed {F : framework} (nb : notebook F) (l1 l2 : list string) :
  printed (printed nb l1) l2 = printed nb (l1 ++ l2).
Proof. unfold printed. cbn [x_train y_train x_test y_test model stdout]. by rewrite app_assoc. Qed.

(** X14: the prediction cell.  When the download of the word index raises,
    the cell ends with that exception before any prediction: nothing is
    printed and nothing changes.  When it returns an index under which every
    token of the two reviews is a row of the embedding table, both reviews
    are reported, the first before the second: the cell returns, having
    printed the three lines of each and changed nothing else. *)
Theorem X14_prediction_cell (F : framework) (nb : notebook F) :
  (∀ e, get_word_index F = Raised e → cell_predict F nb = (Raised e, nb)) ∧
  (∀ raw, get_word_index F = Returned raw →
     Forall valid_index (sequence_of raw review_1) →
     Forall valid_index (sequence_of raw review_2) →
     ∃ p1 p2,
       cell_predict F nb
         = (Returned tt,
            printed nb (report_lines review_1 p1 ++ report_lines review_2 p2))).
Proof.
  split.
  - intros e H. unfold cell_predict, bind, lift. by rewrite H.
  - intros raw H V1 V2.
    destruct (embed_valid F (model nb) _ (pad_row_valid _ 200 V1)) as [vs1 E1].
    destruct (embed_valid F (model nb) _ (pad_row_valid _ 200 V2)) as [vs2 E2].
    exists (recurrent_dense F (model nb) vs1), (recurrent_dense F (model nb) vs2).
    unfold cell_predict. unfold bind at 1, lift. rewrite H. unfold bind.
    fold review_1. fold review_2.
    rewrite (predict_sentiment_cases F raw review_1 nb), E1.
    set (nb1 := printed nb (report_lines review_1 (recurrent_dense F (model nb) vs1))).
    assert (E2' : embed F (model nb1) (pad_row Pre Pre 0 200 (sequence_of raw review_2))
                  = Returned vs2) by exact E2.
    rewrite (predict_sentiment_cases F raw review_2 nb1), E2'.
    unfold nb1. by rewrite printed_printed.
Qed.

Lemma review_tokens_valid :
  Forall valid_index (sequence_of imdb_sample review_1) ∧
  Forall valid_index (sequence_of imdb_sample review_2).
Proof.
  split.
  - let l := eval vm_compute in (sequence_of imdb_sample review_1) in
    change (sequence_of imdb_sample review_1) with l.
    unfold valid_index, max_features. repeat (constructor; [lia|]). constructor.
  - let l := eval vm_compute in (sequence_of imdb_sample review_2) in
    change (sequence_of imdb_sample review_2) with l.
    unfold valid_index, max_features. repeat (constructor; [lia|]). constructor.
Defined.

Lemma X14_prediction_cell_witness :
  cell_predict offline unplugged = (Raised (FrameworkError "no network"), unplugged) ∧
  ∃ p1 p2,
    cell_predict toy built
      = (Returned tt,
         printed built (report_lines review_1 p1 ++ report_lines review_2 p2)).
Proof.
  split.
  - destruct (X14_prediction_cell offline unplugged) as [H _].
    apply H. reflexivity.
  - destruct (X14_prediction_cell toy built) as [_ H].
    exact (H imdb_sample eq_refl (proj1 review_tokens_valid) (proj2 review_tokens_valid)).
Defined.

(** ** No handler anywhere in the notebook *)

Lemma bind_pair {F : framework} {A B : Type} (m : M F A) (k : A → M F B)
    (nb nb' : notebook F) (o : outcome A) :
  m nb = (o, nb') →
  bind F m k nb = match o with
                  | Returned a => k a nb'
                  | Raised e => (Raised e, nb')
                  end.
Proof. intros H. unfold bind. by rewrite H. Qed.

Lemma predict_sentiment_outcome (F : framework) (raw : gmap string Z)
    (text : string) (nb : notebook F) :
  (predict_sentiment F raw text nb).1 =
    match forward F (model nb) (pad_sequences [sequence_of raw text] maxlen) with
    | Returned _ => Returned tt
    | Raised e => Raised e
    end.
Proof.
  rewrite predict_sentiment_cases.
  change (pad_sequences [sequence_of raw text] maxlen)
    with [pad_row Pre Pre 0 200 (sequence_of raw text)].
  cbn [forward].
  by destruct (embed F (model nb) (pad_row Pre Pre 0 200 (sequence_of raw text))).
Qed.

Lemma cell_predict_outcome (F : framework) (nb : notebook F) :
  (cell_predict F nb).1 =
    match get_word_index F with
    | Raised e => Raised e
    | Returned raw =>
        match forward F (model nb) (pad_sequences [sequence_of raw review_1] maxlen) with
        | Raised e => Raised e
        | Returned _ =>
            match forward F (model nb) (pad_sequences [sequence_of raw review_2] maxlen) with
            | Raised e => Raised e
            | Returned _ => Returned tt
            end
        end
    end.
Proof.
  unfold cell_predict. unfold bind at 1, lift.
  destruct (get_word_index F) as [raw|e]; [|done].
  fold review_1. fold review_2. unfold bind.
  pose proof (predict_sentiment_outcome F raw review_1 nb) as H1.
  pose proof (predict_sentiment_frame model raw review_1
                (λ line nb0, eq_refl) nb) as M1.
  destruct (predict_sentiment F raw review_1 nb) as [[[]|e] nb1]; cbn [fst snd] in *.
  - rewrite predict_sentiment_outcome, M1.
    by destruct (forward F (model nb) (pad_sequences [sequence_of raw review_1] maxlen)).
  - by destruct (forward F (model nb) (pad_sequences [sequence_of raw review_1] maxlen)).
Qed.

Lemma cell_model_trace (F : framework) (nb : notebook F) :
  cell_model F nb =
    (Returned tt,
     Build_notebook F (x_train nb) (y_train nb) (x_test nb) (y_test nb)
       (initial F model_layers) (stdout nb)).
Proof. reflexivity. Qed.

Lemma run_all_outcome (F : framework) (nb : notebook F) :
  (run_all F nb).1 = match first_failure F with
                     | Some e => Raised e
                     | None => Returned tt
                     end.
Proof.
  unfold first_failure.
  destruct (load_data F max_features) as [d|e] eqn:Hload.
  - rewrite (run_all_after_data F nb d Hload), (cell_data_trace F nb d Hload).
    cbn [snd].
    rewrite (bind_pair _ _ _ _ _ (cell_model_trace F _)).
    cbn [x_train y_train x_test y_test model stdout].
    rewrite (bind_pair _ _ _ _ _ (cell_train_trace F _)).
    cbn [x_train y_train x_test y_test model stdout].
    destruct (optimizer F (initial F model_layers) (pad_sequences d.1.1 maxlen)
                d.1.2 32 5 (2 # 10)) as [[[]|e] w]; cbn [fst snd]; [|done].
    unfold bind at 1. rewrite cell_evaluate_trace.
    cbn [x_train y_train x_test y_test model stdout].
    destruct (metrics F w (pad_sequences d.2.1 maxlen) d.2.2 32) as [r|e]; [|done].
    cbv beta iota. rewrite cell_predict_outcome.
    unfold printed. cbn [model].
    destruct (get_word_index F) as [raw|e]; [|reflexivity].
    destruct (forward F w (pad_sequences [sequence_of raw review_1] maxlen));
      [|reflexivity].
    by destruct (forward F w (pad_sequences [sequence_of raw review_2] maxlen)).
  - assert (E : cell_data F nb = (Raised e, printed nb ["Loading data..."])).
    { unfold cell_data. rewrite Hload. reflexivity. }
    unfold run_all. by rewrite (bind_pair _ _ _ _ _ E).
Qed.

(** C4, amended: the notebook's code handles no exception.  The run ends
    with the first exception a framework call raises (the download of the
    data, training, evaluation, the download of the word index, either
    prediction), unchanged, and it returns exactly when none of them raises.
    The unknown-word case, however, is decided by the code's own lookup:
    every word of a text becomes its rank plus 3, or 2 when the index has no
    such word, and [predict_sentiment] never raises a [KeyError]. *)
Theorem C4_lookup_default_and_no_handler (F : framework) (nb : notebook F)
    (raw : gmap string Z) (text : string) :
  (run_all F nb).1 = match first_failure F with
                     | Some e => Raised e
                     | None => Returned tt
                     end ∧
  Forall2 (λ w i, i = match raw !! w with
                      | Some rank => rank + 3
                      | None => 2
                      end)
          (words_of text) (sequence_of raw text) ∧
  (∀ k, (predict_sentiment F raw text nb).1 ≠ Raised (KeyError k)).
Proof.
  split; [apply run_all_outcome|]. split.
  - rewrite sequence_of_shifted. apply Forall2_fmap_r, Forall_Forall2_diag.
    apply Forall_true. intros w. reflexivity.
  - intros k. rewrite predict_sentiment_cases.
    destruct (embed F (model nb) (pad_row Pre Pre 0 200 (sequence_of raw text)))
      as [vs|e] eqn:E; [discriminate|].
    intros [= ->]. by destruct (embed_raises F _ _ _ E) as (i & ? & _).
Qed.

Lemma C4_lookup_default_and_no_handler_witness :
  (run_all offline unplugged).1 = Raised (FrameworkError "no network") ∧
  (run_all toy blank).1 = Returned tt ∧
  Forall2 (λ w i, i = match imdb_sample !! w with
                      | Some rank => rank + 3
                      | None => 2
                      end)
          (words_of "the zzz film") (sequence_of imdb_sample "the zzz film").
Proof.
  destruct (C4_lookup_default_and_no_handler offline unplugged imdb_sample "the zzz film")
    as (H1 & _ & _).
  destruct (C4_lookup_default_and_no_handler toy blank imdb_sample "the zzz film")
    as (H2 & H3 & _).
  split_and!; [exact H1 | exact H2 | exact H3].
Defined.
